(** * roar_data_pipeline: the stages, their dispatch and the status loggers

    A shallow embedding of [roar_data_pipeline/utils/utils.py],
    [roar_data_pipeline/utils/loggers.py] and of the three stage modules
    ([downloader.py], [music_separator.py], [voice_activity_detection.py]),
    followed by the properties of the orchestration layer.

    Python exceptions are values of [exn]; a call that may raise returns a
    [result].  Code that writes to the SQLite file, to the console or to the
    worker pool threads a [world] through the state-and-error monad [M].
    A [str] is kept as the bytes of its UTF-8 encoding.

    What the operating system, the download engine, the separation model
    and the diarizer do is not in the source: it enters as a parameter of
    the function that calls them ([os_open], [YoutubeDL], [collaborators],
    the [worker] of a pool). *)

From Stdlib Require Import Ascii.
From stdpp Require Import gmap strings list pretty.

(** ** Exceptions and results *)

Inductive exn : Type :=
  | TypeError          (* wrong number of positional arguments; an object
                          that cannot be pickled *)
  | ValueError
  | AttributeError
  | IndexError
  | AssertionError
  | ProgrammingError   (* sqlite3: operation on a closed connection *)
  | OperationalError   (* sqlite3: no such table, a statement that does
                          not parse, a file that cannot be opened *)
  | OverflowError      (* sqlite3: an int beyond the 64 bits of an INTEGER *)
  | ExternalError (msg : string). (* raised inside yt_dlp, demucs, nemo, mkdir *)

Inductive result (A : Type) : Type :=
  | Ok (a : A)
  | Raise (e : exn).
Arguments Ok {A} a.
Arguments Raise {A} e.

Definition is_ok {A} (r : result A) : bool :=
  match r with Ok _ => true | Raise _ => false end.

Definition result_bind {A B} (r : result A) (k : A -> result B) : result B :=
  match r with
  | Ok a => k a
  | Raise e => Raise e
  end.

(** ** pathlib.PurePosixPath, as far as the source uses it *)

Module Pathlib.

(** A parsed path: [root] is the empty string for a relative path and
    ["/"] (or ["//"]) for an absolute one; [parts] are the components
    after the root. *)
Record Path : Type := mkPath { root : string; parts : list string }.

#[global] Instance Path_eq_dec : EqDecision Path.
Proof. solve_decision. Defined.

(** [os.path.isabs(p)]: the rendered path starts with a slash, which is
    the case exactly when the path has a root. *)
Definition isabs (p : Path) : bool := negb (String.eqb (root p) "").

(** [base / other] *)
Definition joinpath (base other : Path) : Path :=
  if isabs other then other
  else mkPath (root base) (parts base ++ parts other).

(** [other] is [self] or one of its lexical ancestors. *)
Definition is_relative_to (self other : Path) : bool :=
  String.eqb (root self) (root other)
  && bool_decide (take (length (parts other)) (parts self) = parts other).

(** [self.relative_to(other)] raises ValueError unless [self] lies in the
    subpath of [other]; the result has no root. *)
Definition relative_to (self other : Path) : result Path :=
  if is_relative_to self other
  then Ok (mkPath "" (drop (length (parts other)) (parts self)))
  else Raise ValueError.

(** [p.parent]: the path without its last component (a path without
    components is its own parent). *)
Definition parent (p : Path) : Path :=
  mkPath (root p) (take (length (parts p) - 1) (parts p)).

(** [p.parents[i]]: one ancestor per component; IndexError beyond. *)
Definition parents (p : Path) (i : nat) : result Path :=
  if decide (i < length (parts p))
  then Ok (mkPath (root p) (take (length (parts p) - S i) (parts p)))
  else Raise IndexError.

(** [p.name]: the last component, or the empty string. *)
Definition name (p : Path) : string := default "" (last (parts p)).

(** [str(p)]: the root, then the components with a slash between them;
    the relative path without components is rendered as a dot. *)
Definition render (p : Path) : string :=
  match parts p with
  | [] => if String.eqb (root p) "" then "." else root p
  | x :: xs => root p +:+ foldl (fun s y => s +:+ "/" +:+ y) x xs
  end.

End Pathlib.

(** ** utils.py *)

Module Utils.
Import Pathlib.

Definition get_abs_rel_paths (input_path base_path : Path)
  : result (Path * Path) :=
  if isabs input_path then
    result_bind (relative_to input_path base_path) (fun rel_path =>
    Ok (input_path, rel_path))
  else
    Ok (joinpath base_path input_path, input_path).

End Utils.

(** ** The world the pipeline runs in *)

(** One row of a [{ctx}_logs] table: [(Status Integer, Channel_ID text,
    Video_ID text PRIMARY KEY)]. *)
Record row : Type := mkRow {
  Status : Z;
  Channel_ID : string;
  Video_ID : string;
}.

#[global] Instance row_eq_dec : EqDecision row.
Proof. solve_decision. Defined.

(** A [sqlite3] connection object: the database it was opened on and
    whether [close] was called on it. [db_file] names the database itself,
    not the spelling of the path given to [connect]: two connections have
    the same [db_file] exactly when they read and write the same tables. *)
Record connection : Type := mkConnection {
  db_file : string;
  closed : bool;
}.

(** What [multiprocessing.Pool.apply_async] is given: the bound method and
    its [args]. The downloader passes the tuple [(channel_id, video_id)],
    the separator passes the bare string [(path)]. *)
Inductive task : Type :=
  | download_audio_task (channel_id video_id : string)
  | separate_audio_task (args : string).

#[global] Instance task_eq_dec : EqDecision task.
Proof. solve_decision. Defined.

(** The history of the calls a stage makes on its pool and on its logger. *)
Inductive event : Type :=
  | EvApplyAsync (t : task)   (* pool.apply_async(...) *)
  | EvGet (t : task)          (* process.get() returned or raised *)
  | EvTerminate               (* Pool.__exit__ *)
  | EvLoggerClose.            (* self.logger.close() *)

#[global] Instance event_eq_dec : EqDecision event.
Proof. solve_decision. Defined.

Record world : Type := mkWorld {
  (** the class attribute [DatabaseLogger.TABLE_EXISTS], shared by all
      instances *)
  TABLE_EXISTS : list string;
  (** the SQLite databases, each under the name that identifies it: the
      name of a table, in lower case, to its rows in insertion order *)
  files : gmap string (gmap string (list row));
  (** live [sqlite3.Connection] objects by identity *)
  connections : gmap nat connection;
  (** number of stream handlers attached to [logging.getLogger(__name__)] *)
  console_handlers : nat;
  (** messages written to the console, oldest first (the time stamp and
      level of the format string are left out) *)
  console : list string;
  (** calls made so far, oldest first *)
  history : list event;
}.

Definition set_TABLE_EXISTS (f : list string -> list string) (w : world) :=
  mkWorld (f (TABLE_EXISTS w)) (files w) (connections w)
          (console_handlers w) (console w) (history w).
Definition set_files (f : gmap string (gmap string (list row)) ->
                          gmap string (gmap string (list row))) (w : world) :=
  mkWorld (TABLE_EXISTS w) (f (files w)) (connections w)
          (console_handlers w) (console w) (history w).
Definition set_connections (f : gmap nat connection -> gmap nat connection)
    (w : world) :=
  mkWorld (TABLE_EXISTS w) (files w) (f (connections w))
          (console_handlers w) (console w) (history w).
Definition set_console_handlers (f : nat -> nat) (w : world) :=
  mkWorld (TABLE_EXISTS w) (files w) (connections w)
          (f (console_handlers w)) (console w) (history w).
Definition set_console (f : list string -> list string) (w : world) :=
  mkWorld (TABLE_EXISTS w) (files w) (connections w)
          (console_handlers w) (f (console w)) (history w).
Definition set_history (f : list event -> list event) (w : world) :=
  mkWorld (TABLE_EXISTS w) (files w) (connections w)
          (console_handlers w) (console w) (f (history w)).

(** ** The state-and-exception monad *)

Definition M (A : Type) : Type := world -> result A * world.

#[global] Instance M_ret : MRet M := fun A a w => (Ok a, w).
#[global] Instance M_bind : MBind M := fun A B k m w =>
  match m w with
  | (Ok a, w') => k a w'
  | (Raise e, w') => (Raise e, w')
  end.

Definition raise {A} (e : exn) : M A := fun w => (Raise e, w).
Definition gets {A} (f : world -> A) : M A := fun w => (Ok (f w), w).
Definition modify (f : world -> world) : M unit := fun w => (Ok tt, f w).
Definition lift {A} (r : result A) : M A := fun w => (r, w).
Definition tell (e : event) : M unit :=
  modify (set_history (fun h => h ++ [e])).

(** [try: m finally: cleanup] *)
Definition finally {A} (m : M A) (cleanup : M unit) : M A := fun w =>
  match m w with
  | (r, w') =>
      match cleanup w' with
      | (Ok _, w'') => (r, w'')
      | (Raise e, w'') => (Raise e, w'')
      end
  end.

(** [for x in l: body(x)] *)
Fixpoint for_each {A} (l : list A) (body : A -> M unit) : M unit :=
  match l with
  | [] => mret tt
  | x :: l' => body x ;; for_each l' body
  end.

(** [assert cond] *)
Definition assert (cond : bool) : M unit :=
  if cond then mret tt else raise AssertionError.

(** ** sqlite3, as far as [DatabaseLogger] uses it *)

Module Sqlite.

(** SQLite compares the names of tables without regard to the case of the
    ASCII letters; a table is kept under its name in lower case. *)
Definition lower (c : ascii) : ascii :=
  let n := nat_of_ascii c in
  if (65 <=? n) && (n <=? 90) then ascii_of_nat (n + 32) else c.

Fixpoint fold_case (s : string) : string :=
  match s with
  | EmptyString => EmptyString
  | String c s' => String (lower c) (fold_case s')
  end.

(** The characters of an unquoted identifier: first a letter, an
    underscore or a byte above 127, then also digits and the dollar sign.
    (The byte 239 is left out as a first one: the tokenizer looks for a
    byte order mark there.) *)
Definition ident_start (c : ascii) : bool :=
  let n := nat_of_ascii c in
  ((65 <=? n) && (n <=? 90)) || ((97 <=? n) && (n <=? 122))
  || (n =? 95) || ((128 <=? n) && negb (n =? 239)).

Definition ident_char (c : ascii) : bool :=
  let n := nat_of_ascii c in
  ((65 <=? n) && (n <=? 90)) || ((97 <=? n) && (n <=? 122))
  || (n =? 95) || (128 <=? n) || ((48 <=? n) && (n <=? 57)) || (n =? 36).

Fixpoint ident_chars (s : string) : bool :=
  match s with
  | EmptyString => true
  | String c s' => ident_char c && ident_chars s'
  end.

(** A name that a statement of [DatabaseLogger] can splice in unquoted for
    its table: an identifier that does not start with the reserved
    [sqlite_]. (The names spliced in end in [_logs], so none is a keyword.)
    With any other name the statement is taken not to parse. *)
Definition table_name (name : string) : bool :=
  match name with
  | EmptyString => false
  | String c s' => ident_start c && ident_chars s'
  end
  && negb (String.prefix "sqlite_" (fold_case name)).

(** An [int] that fits an SQLite INTEGER, a signed 64-bit number. *)
Definition int64 (z : Z) : bool :=
  ((-9223372036854775808 <=? z) && (z <=? 9223372036854775807))%Z.

(** [CREATE TABLE IF NOT EXISTS name (...)] *)
Definition create_table_if_not_exists (name : string)
    (db : gmap string (list row)) : result (gmap string (list row)) :=
  if table_name name then
    match db !! fold_case name with
    | Some _ => Ok db
    | None => Ok (<[fold_case name := []]> db)
    end
  else Raise OperationalError.

(** The effect of [INSERT OR REPLACE] on the rows: the rows in conflict
    with the new one on the primary key [Video_ID] are deleted, then the new
    row is inserted. *)
Definition replace_row (r : row) (rows : list row) : list row :=
  filter (fun r' => Video_ID r' <> Video_ID r) rows ++ [r].

(** [INSERT OR REPLACE INTO name (Status, Channel_ID, Video_ID) VALUES
    (?, ?, ?)] with the three parameters: the statement is prepared first
    (it must parse and its table must exist), then the parameters are
    bound (the integer must fit), then it runs. *)
Definition insert_or_replace (name : string) (status : Z)
    (channel_id video_id : string)
    (db : gmap string (list row)) : result (gmap string (list row)) :=
  if table_name name then
    match db !! fold_case name with
    | Some rows =>
        if int64 status
        then Ok (<[fold_case name :=
                     replace_row (mkRow status channel_id video_id) rows]> db)
        else Raise OverflowError
    | None => Raise OperationalError
    end
  else Raise OperationalError.

(** [cursor.execute(stmt)] on the connection [c]; the check that the
    connection is open comes before anything is done with the statement. *)
Definition execute (c : nat)
    (stmt : gmap string (list row) -> result (gmap string (list row)))
    : M unit := fun w =>
  match connections w !! c with
  | Some (mkConnection f false) =>
      match stmt (default ∅ (files w !! f)) with
      | Ok db' => (Ok tt, set_files (insert f db') w)
      | Raise e => (Raise e, w)
      end
  | _ => (Raise ProgrammingError, w)
  end.

(** [connection.commit()]: every statement above is taken as durable once
    executed, so a commit only checks that the connection is open. *)
Definition commit (c : nat) : M unit := fun w =>
  match connections w !! c with
  | Some (mkConnection f false) => (Ok tt, w)
  | _ => (Raise ProgrammingError, w)
  end.

(** [connection.close()]; closing twice is allowed. *)
Definition close (c : nat) : M unit :=
  modify (set_connections (alter (fun k => mkConnection (db_file k) true) c)).

(** [sqlite3.connect(filepath)]. Which database a path opens is for the
    operating system to say: [os_open c filepath] is the database that the
    new connection object [c] gets for [filepath] (the file the path
    resolves to, whatever its spelling; a database of the connection's own
    for [":memory:"]), or the OperationalError raised when the file cannot
    be opened. *)
Definition connect (os_open : nat -> string -> result string)
    (filepath : string) : M nat := fun w =>
  let c := fresh (dom (connections w)) in
  match os_open c filepath with
  | Ok database =>
      (Ok c, set_connections (insert c (mkConnection database false)) w)
  | Raise e => (Raise e, w)
  end.

End Sqlite.

(** ** loggers.py *)

(** The [status] argument, [int | bool]. *)
Inductive status_t : Type :=
  | PyBool (b : bool)
  | PyInt (z : Z).

(** the integer bound to the statement's parameter for it ([True] is 1,
    [False] is 0) *)
Definition status_int (s : status_t) : Z :=
  match s with
  | PyBool true => 1
  | PyBool false => 0
  | PyInt z => z
  end.

(** [f"{status}"] *)
Definition status_str (s : status_t) : string :=
  match s with
  | PyBool true => "True"
  | PyBool false => "False"
  | PyInt z => pretty z
  end.

(** An instance of a subclass of [Logger]. *)
Inductive Logger : Type :=
  | DatabaseLogger_obj (connection : nat)
  | ConsoleLogger_obj.

Module DatabaseLogger.

Definition init (os_open : nat -> string -> result string)
    (filepath : string) : M Logger :=
  c ← Sqlite.connect os_open filepath;
  mret (DatabaseLogger_obj c).

Definition create_table (self : nat) (ctx : string) : M unit :=
  Sqlite.execute self (Sqlite.create_table_if_not_exists (ctx +:+ "_logs")) ;;
  Sqlite.commit self ;;
  modify (set_TABLE_EXISTS (fun l => l ++ [ctx])).

Definition log (self : nat) (status : status_t)
    (channel_id video_id ctx : string) : M unit :=
  table_exists ← gets TABLE_EXISTS;
  (if bool_decide (ctx ∈ table_exists) then mret tt
   else create_table self ctx) ;;
  Sqlite.execute self
    (Sqlite.insert_or_replace (ctx +:+ "_logs")
       (status_int status) channel_id video_id) ;;
  Sqlite.commit self.

Definition close (self : nat) : M unit := Sqlite.close self.

End DatabaseLogger.

Module ConsoleLogger.

(** every instance adds one more stream handler to the module's logger *)
Definition init : M Logger :=
  modify (set_console_handlers S) ;;
  mret ConsoleLogger_obj.

Definition message (status : status_t) (channel_id video_id : string)
  : string :=
  "Status: " +:+ status_str status +:+ ", Channel ID: " +:+ channel_id
    +:+ ", Video ID: " +:+ video_id.

(** [self.logger.info(...)]: each attached handler writes the record *)
Definition log (status : status_t) (channel_id video_id : string) : M unit :=
  n ← gets console_handlers;
  modify (set_console (fun out =>
    out ++ replicate n (message status channel_id video_id))).

(** [logging.shutdown()] flushes the handlers *)
Definition close : M unit := mret tt.

End ConsoleLogger.

(** [logger.log(status, channel_id, video_id, *extra)] on an instance of a
    [Logger] subclass: [DatabaseLogger.log] takes exactly one more
    positional argument ([ctx]), [ConsoleLogger.log] none; any other number
    is a TypeError raised before the body runs. *)
Definition Logger_log (logger : Logger) (status : status_t)
    (channel_id video_id : string) (extra : list string) : M unit :=
  match logger, extra with
  | DatabaseLogger_obj c, [ctx] =>
      DatabaseLogger.log c status channel_id video_id ctx
  | ConsoleLogger_obj, [] => ConsoleLogger.log status channel_id video_id
  | _, _ => raise TypeError
  end.

Definition Logger_close (logger : Logger) : M unit :=
  match logger with
  | DatabaseLogger_obj c => DatabaseLogger.close c
  | ConsoleLogger_obj => ConsoleLogger.close
  end.

(** What a [cfg] entry instantiates. *)
Inductive logger_cfg : Type :=
  | DatabaseLogger_cfg (filepath : string)
  | ConsoleLogger_cfg.

Definition instantiate (os_open : nat -> string -> result string)
    (cfg : logger_cfg) : M Logger :=
  match cfg with
  | DatabaseLogger_cfg filepath => DatabaseLogger.init os_open filepath
  | ConsoleLogger_cfg => ConsoleLogger.init
  end.

Module Loggers.

Fixpoint init (os_open : nat -> string -> result string)
    (cfg : list logger_cfg) : M (list Logger) :=
  match cfg with
  | [] => mret []
  | logger :: cfg' =>
      l ← instantiate os_open logger;
      ls ← init os_open cfg';
      mret (l :: ls)
  end.

(** [log(self, status, channel_id, video_id)]: three positional
    arguments, each sink called with the same three. *)
Definition log (loggers : list Logger) (status : status_t)
    (channel_id video_id : string) (extra : list string) : M unit :=
  match extra with
  | [] =>
      for_each loggers (fun logger =>
        Logger_log logger status channel_id video_id [])
  | _ => raise TypeError
  end.

Definition close (loggers : list Logger) : M unit :=
  for_each loggers Logger_close.

End Loggers.

(** The [logger: Logger | Loggers] a stage is constructed with. *)
Inductive stage_logger : Type :=
  | a_Logger (logger : Logger)
  | a_Loggers (loggers : list Logger).

(** [self.logger.log(status, channel_id, video_id, *extra)] *)
Definition logger_log (l : stage_logger) (status : status_t)
    (channel_id video_id : string) (extra : list string) : M unit :=
  match l with
  | a_Logger logger => Logger_log logger status channel_id video_id extra
  | a_Loggers loggers => Loggers.log loggers status channel_id video_id extra
  end.

(** [self.logger.close()] *)
Definition logger_close (l : stage_logger) : M unit :=
  tell EvLoggerClose ;;
  match l with
  | a_Logger logger => Logger_close logger
  | a_Loggers loggers => Loggers.close loggers
  end.

(** ** glob, as far as the stages use it *)

(** A directory tree: what [os.scandir] and [os.path.lexists] see. Entries
    are listed in the order the operating system returns them. *)
#[local] Unset Elimination Schemes.
Inductive node : Type :=
  | File
  | Dir (entries : list (string * node)).
#[local] Set Elimination Schemes.

Module Glob.

Definition is_dir (n : node) : bool :=
  match n with Dir _ => true | File => false end.

Definition entries_of (n : node) : list (string * node) :=
  match n with Dir entries => entries | File => [] end.

(** [_ishidden(name)]: the name starts with a dot *)
Definition _ishidden (name : string) : bool := String.prefix "." name.

(** [_listdir(dirname, dir_fd, dironly)]: a file or a missing directory
    lists nothing *)
Definition _listdir (dir : node) (dironly : bool) : list (string * node) :=
  if dironly then filter (fun e => is_dir e.2 = true) (entries_of dir)
  else entries_of dir.

(** [_glob1(dirname, "*", dir_fd, dironly)]: the pattern is not hidden, so
    hidden names are dropped; [fnmatch] keeps every other name *)
Definition _glob1_star (dir : node) (dironly : bool)
  : list (string * node) :=
  filter (fun e => _ishidden e.1 = false) (_listdir dir dironly).

(** [os.path.lexists(os.path.join(dirname, basename))] *)
Definition _lexists (dir : node) (basename : string) : bool :=
  existsb (fun e => String.eqb e.1 basename) (entries_of dir).

(** [_glob0(dirname, basename, dir_fd, dironly)] for a basename without
    wildcard *)
Definition _glob0 (dir : node) (basename : string) : list string :=
  if _lexists dir basename then [basename] else [].

(** [has_magic(s)]: one of the characters that glob reads as a pattern
    occurs in [s] *)
Fixpoint has_magic (s : string) : bool :=
  match s with
  | EmptyString => false
  | String c s' =>
      Ascii.eqb c "*"%char || Ascii.eqb c "?"%char || Ascii.eqb c "["%char
      || has_magic s'
  end.

(** A directory given by a string that glob takes as it is written: not
    empty, without a magic character and without a slash at its end. The
    rendering of a [Path] other than the root is of that kind when none of
    its components has a magic character. *)
Definition literal (s : string) : bool :=
  negb (has_magic s) && negb (String.eqb s "")
  && negb (String.eqb (String.substring (String.length s - 1) 1 s) "/").

(** [os.path.join(a, b)] for a non-empty [a] and a relative [b] *)
Definition os_path_join (a b : string) : string :=
  if String.eqb (String.substring (String.length a - 1) 1 a) "/"
  then a +:+ b else a +:+ "/" +:+ b.

(** [glob(f"{in_path}/*/*/.wav")] for a [literal] [in_path], where [dir]
    is what is at [in_path]. (With a magic character in [in_path] glob
    matches the directory part against the file system as well; that part
    of glob is not modelled.) *)
Definition glob_wav (in_path : string) (dir : node) : list string :=
  d1 ← _glob1_star dir true;
  d2 ← _glob1_star d1.2 true;
  name ← _glob0 d2.2 ".wav";
  [os_path_join (os_path_join (os_path_join in_path d1.1) d2.1) name].

End Glob.

(** ** multiprocessing.Pool, as far as the stages use it *)

Module Pool.

(** [Pool(processes=n)]: "Number of processes must be at least 1" *)
Definition init (processes : Z) : M unit :=
  if (processes <? 1)%Z then raise ValueError else mret tt.

(** [pool.apply_async(func, args)] hands the task to the workers and
    returns its [AsyncResult] at once *)
Definition apply_async (t : task) : M task :=
  tell (EvApplyAsync t) ;; mret t.

(** [process.get()] blocks until the task is done, then returns its value
    or re-raises what it raised. A task runs in a worker process, on that
    process's copies of the objects: what it does there is not part of the
    caller's [world], only what it reports back is, and [worker t] is that
    report for the task [t]. *)
Definition get (worker : task -> result unit) (t : task) : M unit :=
  tell (EvGet t) ;; lift (worker t).

(** [Pool.__exit__] calls [terminate()], which stops the workers at once *)
Definition terminate : M unit := tell EvTerminate.

(** [with Pool(processes=n) as pool: body] *)
Definition with_pool {A} (processes : Z) (body : M A) : M A :=
  init processes ;; finally body terminate.

(** [for t in tasks: processes.append(pool.apply_async(...))] *)
Fixpoint submit_all (tasks : list task) : M (list task) :=
  match tasks with
  | [] => mret []
  | t :: tasks' =>
      p ← apply_async t;
      ps ← submit_all tasks';
      mret (p :: ps)
  end.

End Pool.

(** ** downloader.py *)

(** A [dict] with string keys, in insertion order. *)
Fixpoint dict_set {V} (k : string) (v : V) (d : list (string * V))
  : list (string * V) :=
  match d with
  | [] => [(k, v)]
  | (k', v') :: d' =>
      if String.eqb k' k then (k, v) :: d' else (k', v') :: dict_set k v d'
  end.

(** [s.replace('_', '-')] *)
Fixpoint replace_underscore (s : string) : string :=
  match s with
  | EmptyString => EmptyString
  | String c s' =>
      String (if Ascii.eqb c "_"%char then "-"%char else c)
             (replace_underscore s')
  end.

Module YoutubeDownloader.

Record t : Type := mk {
  channel_ids : list string;
  save_dir : Pathlib.Path;
  num_workers : Z;
  channel_to_video_map : list (string * list string);
  logger : stage_logger;
  (** the keys of [downloader_kwargs]; the values go to the engine *)
  downloader_kwargs : list string;
}.

(** The download engine [yt_dlp] and the file system, external
    collaborators. *)
Record YoutubeDL : Type := mkYoutubeDL {
  (** [extract_info(url, download=False).get("entries", [])], each entry
      reduced to its [video.get("id")] *)
  extract_info : string -> result (list (option string));
  (** [download([url])] under the options of [download_audio]: the
      [status] of each progress report the engine makes to its progress
      hooks, then how the call ends *)
  download : string -> list string * result unit;
  (** [os.makedirs(dir, exist_ok=True)] when [dir] does not exist yet *)
  makedirs : Pathlib.Path -> result unit;
}.

Record cfg_t : Type := mkCfg {
  cfg_channel_ids : option (list string);
  cfg_channels_file : option string;
  cfg_save_dir : Pathlib.Path;
  cfg_num_workers : option Z;
  cfg_downloader_kwargs : option (list string);
}.

(** [read_lines f] is [map(str.strip, open(f).readlines())]. A
    [channel_ids] found in the configuration is a [ListConfig], whose
    [extend] asserts that it is given a list or a tuple: given the [map]
    object it raises AssertionError. The default is a [list], which takes
    it. *)
Definition init (read_lines : string -> result (list string)) (cfg : cfg_t)
    (logger : stage_logger) : result t :=
  let channel_ids := default [] (cfg_channel_ids cfg) in
  let channels_file := cfg_channels_file cfg in
  if bool_decide (channel_ids = []) && bool_decide (channels_file = Some "")
  then Raise AssertionError
  else
    result_bind
      (match channels_file with
       | Some f =>
           if String.eqb f "" then Ok channel_ids
           else result_bind (read_lines f) (fun lines =>
                match cfg_channel_ids cfg with
                | Some _ => Raise AssertionError
                | None => Ok (channel_ids ++ lines)
                end)
       | None => Ok channel_ids
       end) (fun channel_ids =>
    Ok (mk channel_ids (cfg_save_dir cfg) (default 0%Z (cfg_num_workers cfg))
           [] logger (default [] (cfg_downloader_kwargs cfg)))).

(** [type(self).__name__] *)
Definition __name__ : string := "YoutubeDownloader".

(** [[video.get("id") for video in entries if video.get("id")]] *)
Definition truthy_ids (entries : list (option string)) : list string :=
  omap (fun id => match id with
                  | Some s => if String.eqb s "" then None else Some s
                  | None => None
                  end) entries.

Definition get_video_ids (ytdl : YoutubeDL) (self : t) (channel_id : string)
  : M t :=
  let channel_url := "https://youtube.com/channel/" +:+ channel_id in
  entries ← lift (extract_info ytdl channel_url);
  let video_ids := truthy_ids entries in
  for_each video_ids (fun video_id =>
    logger_log (logger self) (PyBool false) channel_id video_id [__name__]) ;;
  mret (mk (channel_ids self) (save_dir self) (num_workers self)
           (dict_set channel_id video_ids (channel_to_video_map self))
           (logger self) (downloader_kwargs self)).

(** Where the [outtmpl] that [download_audio] computes puts the audio of a
    video: [{save_dir}/{channel_id}/{video_id}/{title}_{video_id'}.{ext}]
    (for ids and titles that are path components: not empty, no slash, not
    a dot or two). It is the template the engine uses unless
    [downloader_kwargs] has an ["outtmpl"] of its own. *)
Definition outtmpl (self : t) (channel_id video_id title ext : string)
  : Pathlib.Path :=
  Pathlib.mkPath (Pathlib.root (save_dir self))
    (Pathlib.parts (save_dir self) ++
     [channel_id; video_id;
      title +:+ "_" +:+ replace_underscore video_id +:+ "." +:+ ext]).

Definition download_audio (ytdl : YoutubeDL) (self : t)
    (channel_id video_id : string) : M unit :=
  let logger_hook (status : string) : M unit :=
    if String.eqb status "finished"
    then logger_log (logger self) (PyBool true) channel_id video_id [__name__]
    else mret tt in
  lift (makedirs ytdl
          (Pathlib.mkPath (Pathlib.root (save_dir self))
             (Pathlib.parts (save_dir self) ++ [channel_id; video_id]))) ;;
  (* [**self.downloader_kwargs] comes last in [ydl_opts]: a
     ["progress_hooks"] among its keys replaces the list that holds
     [logger_hook] *)
  let progress_hooks :=
    if bool_decide ("progress_hooks" ∈ downloader_kwargs self) then []
    else [logger_hook] in
  let '(progress, outcome) :=
    download ytdl ("https://www.youtube.com/watch?v=" +:+ video_id) in
  for_each progress (fun status =>
    for_each progress_hooks (fun hook => hook status)) ;;
  lift outcome.

(** What a worker runs for a task: [func( *args )]. *)
Definition run_task (ytdl : YoutubeDL) (self : t) (t : task) : M unit :=
  match t with
  | download_audio_task channel_id video_id =>
      download_audio ytdl self channel_id video_id
  | separate_audio_task _ => raise TypeError
  end.

(** the tasks in the order of the two nested loops *)
Definition tasks (self : t) : list task :=
  '(channel_id, video_ids) ← channel_to_video_map self;
  video_id ← video_ids;
  [download_audio_task channel_id video_id].

Definition start_download (worker : task -> result unit) (self : t)
  : M unit :=
  Pool.with_pool (num_workers self) (
    processes ← Pool.submit_all (tasks self);
    for_each processes (Pool.get worker)) ;;
  logger_close (logger self).

Definition __call__ (worker : task -> result unit) (self : t) : M unit :=
  start_download worker self.

End YoutubeDownloader.

(** ** music_separator.py *)

(** The annotated type [str | Path] of [audio_filepath]. *)
Inductive str_or_Path : Type :=
  | a_str (s : string)
  | a_Path (p : Pathlib.Path).

Module MusicSeparator.

(** [cfg_in_path] is [Path(cfg.in_path)], [cfg_out_path] is
    [Path(cfg.out_path)] when the key is there. *)
Record cfg_t : Type := mkCfg {
  cfg_in_path : Pathlib.Path;
  cfg_out_path : option Pathlib.Path;
  cfg_num_workers : option Z;
}.

(** [in_path] and [out_path] hold the paths as [str] renders them. *)
Record t : Type := mk {
  in_path : string;
  out_path : string;
  audio_filepaths : list string;
  num_workers : Z;
  logger : stage_logger;
}.

(** The file system and the separation model [demucs], external
    collaborators. *)
Record collaborators : Type := mkCollaborators {
  (** what is at [in_path] when [glob] runs; [None] when nothing is *)
  at_in_path : option node;
  (** how [out_path.mkdir(exist_ok=True)] ends *)
  mkdir_out_path : result unit;
  (** [os.path.isfile] *)
  isfile : str_or_Path -> bool;
  (** [demucs.separate.main([..., "-o", out_path, ..., audio_filepath])] *)
  demucs_separate_main : string -> str_or_Path -> result unit;
}.

Definition __name__ : string := "MusicSeparator".

Definition init (env : collaborators) (cfg : cfg_t) (logger : stage_logger)
  : result t :=
  let in_path := Pathlib.render (cfg_in_path cfg) in
  match at_in_path env with
  | None => Raise AssertionError
  | Some dir =>
      let out_path :=
        Pathlib.render (default (cfg_in_path cfg) (cfg_out_path cfg)) in
      result_bind (mkdir_out_path env) (fun _ =>
      let audio_filepaths := Glob.glob_wav in_path dir in
      Ok (mk in_path out_path audio_filepaths
             (default 0%Z (cfg_num_workers cfg)) logger))
  end.

(** [audio_filepath.parent.name]: a [str] has no attribute [parent] *)
Definition parent_name (audio_filepath : str_or_Path) : result string :=
  match audio_filepath with
  | a_Path p => Ok (Pathlib.name (Pathlib.parent p))
  | a_str _ => Raise AttributeError
  end.

(** [audio_filepath.parents[1].name] *)
Definition parents_1_name (audio_filepath : str_or_Path) : result string :=
  match audio_filepath with
  | a_Path p => result_bind (Pathlib.parents p 1) (fun q => Ok (Pathlib.name q))
  | a_str _ => Raise AttributeError
  end.

Definition separate_audio (env : collaborators) (self : t)
    (audio_filepath : str_or_Path) : M unit :=
  assert (isfile env audio_filepath) ;;
  lift (demucs_separate_main env (out_path self) audio_filepath) ;;
  channel_id ← lift (parent_name audio_filepath);
  video_id ← lift (parents_1_name audio_filepath);
  logger_log (logger self) (PyBool true) channel_id video_id [__name__].

(** What a worker runs for a task: [func( *args )]. The [args] of
    [separate_all] is a string, so it is unpacked into its characters and
    [separate_audio] takes exactly one of them. *)
Definition run_task (env : collaborators) (self : t) (t : task) : M unit :=
  match t with
  | separate_audio_task args =>
      match args with
      | String c EmptyString =>
          separate_audio env self (a_str (String c EmptyString))
      | _ => raise TypeError
      end
  | download_audio_task _ _ => raise TypeError
  end.

Definition tasks (self : t) : list task :=
  map separate_audio_task (audio_filepaths self).

Definition separate_all (worker : task -> result unit) (self : t) : M unit :=
  Pool.with_pool (num_workers self) (
    processes ← Pool.submit_all (tasks self);
    for_each processes (Pool.get worker)) ;;
  logger_close (logger self).

Definition __call__ (worker : task -> result unit) (self : t) : M unit :=
  separate_all worker self.

End MusicSeparator.

(** What a worker process reports for a task that has reached it and that
    it runs on its copy [w] of the world. *)
Definition worker_of (run : task -> M unit) (w : world) (t : task)
  : result unit := (run t w).1.

(** A task reaches a worker pickled, and with the bound method goes the
    stage and its logger. A [DatabaseLogger] holds a [sqlite3.Connection],
    which cannot be pickled; a [ConsoleLogger] can. *)
Definition picklable_Logger (l : Logger) : bool :=
  match l with
  | DatabaseLogger_obj _ => false
  | ConsoleLogger_obj => true
  end.

Definition picklable (l : stage_logger) : bool :=
  match l with
  | a_Logger logger => picklable_Logger logger
  | a_Loggers loggers => forallb picklable_Logger loggers
  end.

(** What [process.get()] reports for a task of a stage whose logger is
    [l]: the TypeError of the failed pickling when the stage cannot be
    pickled, what the worker reports otherwise. *)
Definition pool_report (l : stage_logger) (run : task -> M unit) (w : world)
    (t : task) : result unit :=
  if picklable l then worker_of run w t else Raise TypeError.

(** ** voice_activity_detection.py *)

Module VAD.

Record cfg_t : Type := mkCfg {
  cfg_vad_config : string;
  cfg_in_path : string;
  cfg_out_path : option string;
  cfg_num_workers : option Z;
  cfg_batch_size : option Z;
}.

(** The loaded configuration file; the three thresholds in hundredths. *)
Record vad_config_t : Type := mkVadConfig {
  onset : Z;
  offset : Z;
  pad_offset : Z;
  vc_num_workers : Z;
}.

Record diarizer_t : Type := mkDiarizer {
  out_dir : string;
  manifest_filepath : string;
}.

(** The instance attributes; [None] while an attribute is not yet set. *)
Record t : Type := mk {
  vad_config : option vad_config_t;
  in_path : option string;
  out_path : option string;
  audio_filepaths : option (list string);
  num_workers : option Z;
  batch_size : option Z;
  diarizer : option diarizer_t;
  logger : option stage_logger;
}.

Definition new : t := mk None None None None None None None None.

(** [self.attr]: AttributeError while the attribute is not set *)
Definition getattr {A} (attr : t -> option A) (self : t) : result A :=
  match attr self with
  | Some v => Ok v
  | None => Raise AttributeError
  end.

Definition set_vad_config (v : vad_config_t) (self : t) : t :=
  mk (Some v) (in_path self) (out_path self) (audio_filepaths self)
     (num_workers self) (batch_size self) (diarizer self) (logger self).
Definition set_in_path (v : string) (self : t) : t :=
  mk (vad_config self) (Some v) (out_path self) (audio_filepaths self)
     (num_workers self) (batch_size self) (diarizer self) (logger self).
Definition set_out_path (v : string) (self : t) : t :=
  mk (vad_config self) (in_path self) (Some v) (audio_filepaths self)
     (num_workers self) (batch_size self) (diarizer self) (logger self).
Definition set_audio_filepaths (v : list string) (self : t) : t :=
  mk (vad_config self) (in_path self) (out_path self) (Some v)
     (num_workers self) (batch_size self) (diarizer self) (logger self).
Definition set_num_workers (v : Z) (self : t) : t :=
  mk (vad_config self) (in_path self) (out_path self) (audio_filepaths self)
     (Some v) (batch_size self) (diarizer self) (logger self).
Definition set_batch_size (v : Z) (self : t) : t :=
  mk (vad_config self) (in_path self) (out_path self) (audio_filepaths self)
     (num_workers self) (Some v) (diarizer self) (logger self).
Definition set_diarizer (v : diarizer_t) (self : t) : t :=
  mk (vad_config self) (in_path self) (out_path self) (audio_filepaths self)
     (num_workers self) (batch_size self) (Some v) (logger self).
Definition set_logger (v : stage_logger) (self : t) : t :=
  mk (vad_config self) (in_path self) (out_path self) (audio_filepaths self)
     (num_workers self) (batch_size self) (diarizer self) (Some v).

(** The configuration loader, the file system, the temporary file and the
    diarization model, external collaborators. *)
Record collaborators : Type := mkCollaborators {
  OmegaConf_load : string -> result vad_config_t;
  at_in_path : option node;
  tempfile_name : string;
  ClusteringDiarizer : vad_config_t -> result diarizer_t;
}.

Definition update_vad_config (self : t) : result t :=
  result_bind (getattr vad_config self) (fun c =>
  let c := mkVadConfig 80 (offset c) (pad_offset c) (vc_num_workers c) in
  let c := mkVadConfig (onset c) 60 (pad_offset c) (vc_num_workers c) in
  let c := mkVadConfig (onset c) (offset c) (-5) (vc_num_workers c) in
  let self := set_vad_config c self in
  (* self.diarizer.out_dir = self.out_path: the right-hand side first *)
  result_bind (getattr out_path self) (fun out =>
  result_bind (getattr diarizer self) (fun d =>
  let self := set_diarizer (mkDiarizer out (manifest_filepath d)) self in
  result_bind (getattr num_workers self) (fun n =>
  result_bind (getattr vad_config self) (fun c =>
  Ok (set_vad_config
        (mkVadConfig (onset c) (offset c) (pad_offset c) n) self)))))).

(** One line of the manifest. *)
Record manifest_entry : Type := mkEntry {
  audio_filepath : string;
  entry_offset : Z;
  duration : option Z;
  text : string;
  label : string;
}.

(** the lines [make_manifest] writes to the temporary file *)
Definition manifest_lines (self : t) : result (list manifest_entry) :=
  result_bind (getattr audio_filepaths self) (fun paths =>
  Ok (map (fun audio_file => mkEntry audio_file 0 None "-" "infer") paths)).

Definition make_manifest (env : collaborators) (self : t) : result t :=
  result_bind (manifest_lines self) (fun _ =>
  result_bind (getattr diarizer self) (fun d =>
  Ok (set_diarizer (mkDiarizer (out_dir d) (tempfile_name env)) self))).

Definition init (env : collaborators) (cfg : cfg_t) (logger : stage_logger)
  : result t :=
  result_bind (OmegaConf_load env (cfg_vad_config cfg)) (fun c =>
  let self := set_vad_config c new in
  result_bind (update_vad_config self) (fun self =>
  let self := set_in_path (cfg_in_path cfg) self in
  let self := set_out_path (default (cfg_in_path cfg) (cfg_out_path cfg))
                self in
  let self := set_audio_filepaths
                (Glob.glob_wav (cfg_in_path cfg)
                   (default File (at_in_path env))) self in
  result_bind (make_manifest env self) (fun self =>
  let self := set_num_workers (default 0%Z (cfg_num_workers cfg)) self in
  let self := set_batch_size (default 1%Z (cfg_batch_size cfg)) self in
  result_bind (getattr vad_config self) (fun c =>
  result_bind (ClusteringDiarizer env c) (fun d =>
  let self := set_diarizer d self in
  Ok (set_logger logger self)))))).

End VAD.

(** ** Notions used to state the properties *)

(** The world with its history replaced. *)
Definition with_history (w : world) (h : list event) : world :=
  set_history (fun _ => h) w.

(** The tables of the SQLite database [f] (none while its file does not
    exist). *)
Definition database_of (w : world) (f : string) : gmap string (list row) :=
  default ∅ (files w !! f).

(** The name under which the table of stage [ctx] is kept. *)
Definition table_key (ctx : string) : string :=
  Sqlite.fold_case (ctx +:+ "_logs").

(** The table that SQLite finds under [name] in the database [f]. *)
Definition table_of (w : world) (f name : string) : option (list row) :=
  database_of w f !! Sqlite.fold_case name.

(** Two names of one table: they differ at most in the case of letters. *)
Definition same_table (name name' : string) : bool :=
  String.eqb (Sqlite.fold_case name) (Sqlite.fold_case name').

(** The rows of the table of stage [ctx] in the database [f]. *)
Definition rows_of (w : world) (f ctx : string) : list row :=
  default [] (database_of w f !! table_key ctx).

(** What [DatabaseLogger.log] can store: a stage name that gives a table
    name, a status that fits 64 bits. *)
Definition stage_name_ok (ctx : string) : bool :=
  Sqlite.table_name (ctx +:+ "_logs").
Definition status_ok (s : status_t) : bool := Sqlite.int64 (status_int s).

(** [TABLE_EXISTS] tells the truth about the file [f] for the stage [ctx]:
    when it lists [ctx], the table of [ctx] exists in [f]. *)
Definition table_known (w : world) (f ctx : string) : bool :=
  negb (bool_decide (ctx ∈ TABLE_EXISTS w))
  || bool_decide (is_Some (database_of w f !! table_key ctx)).

(** The rows held for a video id, and the others. *)
Definition rows_for (video_id : string) (rows : list row) : list row :=
  filter (fun r => Video_ID r = video_id) rows.
Definition rows_besides (video_id : string) (rows : list row) : list row :=
  filter (fun r => Video_ID r <> video_id) rows.

(** The completion read [isComplete(group_id, item_id, stage_name)] of the
    specification, on the durable store: a record for the key exists and
    says complete. The source has no method for it. *)
Definition spec_isComplete (w : world) (f : string)
    (group_id item_id stage_name : string) : bool :=
  existsb (fun r => String.eqb (Channel_ID r) group_id
                    && String.eqb (Video_ID r) item_id
                    && (Status r =? 1)%Z)
          (rows_of w f stage_name).

(** The events of a run: those [w'] has beyond [w]. *)
Definition since (w w' : world) : list event :=
  drop (length (history w)) (history w').

(** How often [self.logger.close()] was called. *)
Definition closes (h : list event) : nat :=
  length (filter (fun e => e = EvLoggerClose) h).

(** The tasks handed to the pool, in order. *)
Definition dispatched (h : list event) : list task :=
  omap (fun e => match e with EvApplyAsync t => Some t | _ => None end) h.

(** The tasks whose result was awaited, in order. *)
Definition awaited (h : list event) : list task :=
  omap (fun e => match e with EvGet t => Some t | _ => None end) h.

(** Every file named [<stem>.wav] in the tree has a non-empty stem: no
    file is named just [.wav]. *)
Fixpoint audio_files_have_stem (n : node) : bool :=
  match n with
  | File => true
  | Dir entries =>
      forallb (fun e =>
        match e with
        | (name, File) => negb (String.eqb name ".wav")
        | (_, child) => audio_files_have_stem child
        end) entries
  end.

(** The block [with Pool(processes=n) as pool: submit; wait] that
    [start_download] and [separate_all] share. *)
Definition pool_block (worker : task -> result unit) (n : Z)
    (tasks : list task) : M unit :=
  Pool.with_pool n (
    processes ← Pool.submit_all tasks;
    for_each processes (Pool.get worker)).

(** A stage run: the pool block, then [self.logger.close()]. *)
Definition run_stage (worker : task -> result unit) (n : Z)
    (tasks : list task) (l : stage_logger) : M unit :=
  pool_block worker n tasks ;; logger_close l.

(** No file and no directory two levels below the tree's root is named
    just [.wav]. *)
Definition no_entry_named_wav (dir : node) : bool :=
  forallb (fun d1 =>
    forallb (fun d2 =>
      forallb (fun e => negb (String.eqb e.1 ".wav")) (Glob.entries_of d2.2))
      (Glob.entries_of d1.2))
    (Glob.entries_of dir).

(** ** Concrete runs *)

Definition empty_world : world := mkWorld [] ∅ ∅ 0 [] [].

(** A worker pool in which the download of one video always fails. *)
Definition fails_on (video_id : string) (t : task) : result unit :=
  match t with
  | download_audio_task _ v =>
      if String.eqb v video_id then Raise (ExternalError "download failed")
      else Ok tt
  | separate_audio_task _ => Ok tt
  end.

Definition always_ok (t : task) : result unit := Ok tt.

(** Five videos of one channel, two workers, a console logger. *)
Definition five_items : YoutubeDownloader.t :=
  YoutubeDownloader.mk ["chA"] (Pathlib.mkPath "/" ["data"]) 2
    [("chA", ["v1"; "v2"; "v3"; "v4"; "v5"])] (a_Logger ConsoleLogger_obj)
    [].

(** A ledger file in which [vid1] of [chA] is marked complete for the
    acquisition stage, and an open connection on it. *)
Definition ledger_world : world :=
  mkWorld ["YoutubeDownloader"]
    {[ "logs.db" := {[ "youtubedownloader_logs" := [mkRow 1 "chA" "vid1"] ]} ]}
    {[ 0 := mkConnection "logs.db" false ]} 0 [] [].

(** A channel listing with two videos. *)
Definition two_videos : YoutubeDownloader.YoutubeDL :=
  YoutubeDownloader.mkYoutubeDL
    (fun _ => Ok [Some "vid1"; Some "vid2"])
    (fun _ => (["downloading"; "finished"], Ok tt))
    (fun _ => Ok tt).

(** The acquisition stage on that ledger, before enumeration. *)
Definition ledger_stage : YoutubeDownloader.t :=
  YoutubeDownloader.mk ["chA"] (Pathlib.mkPath "/" ["data"]) 2 []
    (a_Logger (DatabaseLogger_obj 0)) [].

(** The same stage once [chA] was enumerated. *)
Definition ledger_stage_enumerated : YoutubeDownloader.t :=
  YoutubeDownloader.mk ["chA"] (Pathlib.mkPath "/" ["data"]) 2
    [("chA", ["vid1"; "vid2"])] (a_Logger (DatabaseLogger_obj 0)) [].

(** What [process.get()] reports for the tasks of that stage, forked with
    the world [w]: the stage holds a [DatabaseLogger]. *)
Definition ledger_pool (w : world) : task -> result unit :=
  pool_report (YoutubeDownloader.logger ledger_stage_enumerated)
    (YoutubeDownloader.run_task two_videos ledger_stage_enumerated) w.

(** A fresh process with one open connection on a ledger file that does not
    exist yet, and one console handler. *)
Definition fresh_ledger_world : world :=
  mkWorld [] ∅ {[ 0 := mkConnection "logs.db" false ]} 1 [] [].

(** A tree as the acquisition stage lays it out, every audio file with a
    stem, and beside the files a directory named [.wav]. *)
Definition tree_with_wav_directory : node :=
  Dir [("chA", Dir [("vid1", Dir [("title_vid1.wav", File)]);
                    ("vid2", Dir [("title_vid2.wav", File);
                                  (".wav", Dir [])])])].

(** The same tree without that directory. *)
Definition tree_of_audio_files : node :=
  Dir [("chA", Dir [("vid1", Dir [("title_vid1.wav", File)]);
                    ("vid2", Dir [("title_vid2.wav", File)])])].

(** A separation stage over [data], its file system and model. *)
Definition separator_env (dir : node) : MusicSeparator.collaborators :=
  MusicSeparator.mkCollaborators (Some dir) (Ok tt) (fun _ => true)
    (fun _ _ => Ok tt).

Definition separator_cfg : MusicSeparator.cfg_t :=
  MusicSeparator.mkCfg (Pathlib.mkPath "" ["data"]) None (Some 2%Z).

Definition separator_on_ledger : MusicSeparator.t :=
  MusicSeparator.mk "data" "data" [] 2 (a_Logger (DatabaseLogger_obj 0)).

(** An operating system whose working directory is [/srv] and which opens
    every file there: a path opens the same file with or without a leading
    [./], and [":memory:"] opens a database of the connection's own. *)
Definition os_open_in_srv (c : nat) (filepath : string) : result string :=
  Ok (if String.eqb filepath ":memory:" then ":memory:" +:+ pretty c
      else if String.prefix "./" filepath
      then "/srv/" +:+ String.substring 2 (String.length filepath - 2) filepath
      else "/srv/" +:+ filepath).

(** One that opens no file. *)
Definition os_open_fails (c : nat) (filepath : string) : result string :=
  Raise OperationalError.

(** Two open connections on two different ledger databases. *)
Definition two_ledgers_world : world :=
  mkWorld [] ∅ {[ 0 := mkConnection "a.db" false;
                  1 := mkConnection "b.db" false ]} 0 [] [].

(** ** Further notions *)

(** [d.get(k)] on the insertion-ordered dict. *)
Fixpoint dict_get {V} (k : string) (d : list (string * V)) : option V :=
  match d with
  | [] => None
  | (k', v) :: d' => if String.eqb k' k then Some v else dict_get k d'
  end.

(** [list(d.keys())] *)
Definition dict_keys {V} (d : list (string * V)) : list string := d.*1.

#[global] Instance logger_cfg_eq_dec : EqDecision logger_cfg.
Proof. solve_decision. Defined.

#[global] Instance Logger_eq_dec : EqDecision Logger.
Proof. solve_decision. Defined.

(** The number of console sinks a configuration asks for. *)
Definition console_sinks (cfg : list logger_cfg) : nat :=
  length (filter (fun c => c = ConsoleLogger_cfg) cfg).

(** The connections of the database sinks among some loggers. *)
Definition database_connections (loggers : list Logger) : list nat :=
  omap (fun l => match l with
                 | DatabaseLogger_obj c => Some c
                 | ConsoleLogger_obj => None
                 end) loggers.

(** A configuration entry and the object instantiated for it in the world
    [w], seen from the world [w'] after: a database sink holds a connection
    that is new and open on the database its path was resolved to. *)
Definition instantiated (os_open : nat -> string -> result string)
    (w w' : world) (cfg : logger_cfg) (l : Logger) : Prop :=
  match cfg, l with
  | DatabaseLogger_cfg filepath, DatabaseLogger_obj c =>
      connections w !! c = None
      /\ exists database, os_open c filepath = Ok database
         /\ connections w' !! c = Some (mkConnection database false)
  | ConsoleLogger_cfg, ConsoleLogger_obj => True
  | _, _ => False
  end.

(** The video ids of the rows, the primary key column. *)
Definition video_ids (rows : list row) : list string := Video_ID <$> rows.

(** * Properties *)

Section GetAbsRelPaths.
Import Pathlib Utils.

Lemma isabs_mkPath_empty ps : isabs (mkPath "" ps) = false.
Proof. reflexivity. Qed.

Lemma relative_to_join self other rel :
  relative_to self other = Ok rel ->
  joinpath other rel = self /\ isabs rel = false.
Proof.
  unfold relative_to, is_relative_to.
  destruct (String.eqb (root self) (root other)) eqn:Hroot; [|done].
  case_bool_decide as Hpre; [|done]. simpl.
  intros [= <-]. split; [|done].
  unfold joinpath. rewrite isabs_mkPath_empty. simpl.
  apply String.eqb_eq in Hroot.
  destruct self as [r ps]; simpl in *. subst r.
  f_equal. rewrite <- Hpre at 1. apply take_drop.
Qed.

(** C10. Whenever [get_abs_rel_paths] returns, the absolute path is the
    base joined with the relative path and the relative path has no root;
    it returns for every relative input and for every absolute input lying
    under the base; for an absolute input that does not lie under the base
    it raises (ValueError) instead of returning. *)
Theorem get_abs_rel_paths_roundtrip (input_path base_path : Path) :
  (forall abs_path rel_path,
      get_abs_rel_paths input_path base_path = Ok (abs_path, rel_path) ->
      abs_path = joinpath base_path rel_path /\ isabs rel_path = false)
  /\ (isabs input_path = false
      \/ (isabs input_path = true
          /\ is_relative_to input_path base_path = true) ->
      is_ok (get_abs_rel_paths input_path base_path) = true)
  /\ (isabs input_path = true ->
      is_relative_to input_path base_path = false ->
      get_abs_rel_paths input_path base_path = Raise ValueError).
Proof.
  unfold get_abs_rel_paths. split; [|split].
  - intros abs_path rel_path.
    destruct (isabs input_path) eqn:Habs.
    + destruct (relative_to input_path base_path) as [rel|e] eqn:Hrel;
        simpl; [|done].
      intros [= <- <-]. apply relative_to_join in Hrel as [Hjoin Hrel'].
      by rewrite Hjoin.
    + by intros [= <- <-].
  - intros [Hrel | [Habs Hunder]].
    + by rewrite Hrel.
    + rewrite Habs. unfold relative_to. by rewrite Hunder.
  - intros Habs Hnot. rewrite Habs. unfold relative_to. by rewrite Hnot.
Qed.

Lemma get_abs_rel_paths_roundtrip_witness :
  get_abs_rel_paths (mkPath "/" ["data"; "chA"; "a.wav"]) (mkPath "/" ["data"])
    = Ok (mkPath "/" ["data"; "chA"; "a.wav"], mkPath "" ["chA"; "a.wav"])
  /\ get_abs_rel_paths (mkPath "/" ["other"; "a.wav"]) (mkPath "/" ["data"])
    = Raise ValueError.
Proof.
  split; [reflexivity|].
  by apply (get_abs_rel_paths_roundtrip
              (mkPath "/" ["other"; "a.wav"]) (mkPath "/" ["data"])).
Defined.

End GetAbsRelPaths.

(** ** The monad and the history *)

Ltac monad :=
  repeat (unfold mbind, M_bind, mret, M_ret, raise, lift, gets, modify, tell,
            assert, finally, with_history, set_history; simpl).

Section MonadFacts.

Lemma bind_ok {A B} (m : M A) (k : A -> M B) w a w' :
  m w = (Ok a, w') -> (m ≫= k) w = k a w'.
Proof. intros H. unfold mbind, M_bind. by rewrite H. Qed.

Lemma bind_raise {A B} (m : M A) (k : A -> M B) w e w' :
  m w = (Raise e, w') -> (m ≫= k) w = (Raise e, w').
Proof. intros H. unfold mbind, M_bind. by rewrite H. Qed.

Lemma with_history_id w : with_history w (history w) = w.
Proof. by destruct w. Qed.

Lemma tell_spec e w :
  tell e w = (Ok tt, with_history w (history w ++ [e])).
Proof. reflexivity. Qed.

Lemma for_each_app {A} (l1 l2 : list A) (body : A -> M unit) w :
  for_each (l1 ++ l2) body w =
  match for_each l1 body w with
  | (Ok _, w1) => for_each l2 body w1
  | (Raise e, w1) => (Raise e, w1)
  end.
Proof.
  revert w. induction l1 as [|x l1 IH]; intros w; [done|].
  simpl. unfold mbind, M_bind.
  destruct (body x w) as [[[]|e] w1]; [apply IH|done].
Qed.

End MonadFacts.

(** ** The pool *)

Section PoolFacts.
Variable worker : task -> result unit.

Lemma submit_all_spec tasks w :
  Pool.submit_all tasks w
  = (Ok tasks, with_history w (history w ++ map EvApplyAsync tasks)).
Proof.
  revert w. induction tasks as [|t tasks IH]; intros w; simpl.
  - by rewrite app_nil_r, with_history_id.
  - unfold Pool.apply_async. monad. rewrite IH. monad.
    by rewrite <- app_assoc.
Qed.

Lemma get_all_ok tasks w :
  Forall (fun t => worker t = Ok tt) tasks ->
  for_each tasks (Pool.get worker) w
  = (Ok tt, with_history w (history w ++ map EvGet tasks)).
Proof.
  intros Hall. revert w.
  induction Hall as [|t tasks Ht _ IH]; intros w; simpl.
  - by rewrite app_nil_r, with_history_id.
  - unfold Pool.get. monad. rewrite Ht, IH. monad.
    by rewrite <- app_assoc.
Qed.

Lemma get_raises t e w :
  worker t = Raise e ->
  Pool.get worker t w = (Raise e, with_history w (history w ++ [EvGet t])).
Proof.
  intros Ht. unfold Pool.get. monad. by rewrite Ht.
Qed.

Lemma get_all_raise pre t post e w :
  Forall (fun t => worker t = Ok tt) pre ->
  worker t = Raise e ->
  for_each (pre ++ t :: post) (Pool.get worker) w
  = (Raise e, with_history w (history w ++ map EvGet (pre ++ [t]))).
Proof.
  intros Hpre Ht. rewrite for_each_app, (get_all_ok _ _ Hpre). simpl.
  rewrite (bind_raise _ _ _ _ _ (get_raises _ _ _ Ht)). monad.
  by rewrite map_app, app_assoc.
Qed.

Lemma pool_block_no_pool n tasks w :
  (n < 1)%Z -> pool_block worker n tasks w = (Raise ValueError, w).
Proof.
  intros Hn. unfold pool_block, Pool.with_pool, Pool.init.
  by rewrite (proj2 (Z.ltb_lt n 1) Hn).
Qed.

Lemma pool_block_ok n tasks w :
  (1 <= n)%Z ->
  Forall (fun t => worker t = Ok tt) tasks ->
  pool_block worker n tasks w
  = (Ok tt, with_history w (history w ++ map EvApplyAsync tasks
                              ++ map EvGet tasks ++ [EvTerminate])).
Proof.
  intros Hn Hall.
  unfold pool_block, Pool.with_pool, Pool.init, Pool.terminate.
  rewrite (proj2 (Z.ltb_ge n 1) Hn). monad.
  rewrite submit_all_spec. monad. rewrite (get_all_ok _ _ Hall). monad.
  by rewrite <- !app_assoc.
Qed.

Lemma pool_block_raise n pre t post e w :
  (1 <= n)%Z ->
  Forall (fun t => worker t = Ok tt) pre ->
  worker t = Raise e ->
  pool_block worker n (pre ++ t :: post) w
  = (Raise e,
     with_history w (history w ++ map EvApplyAsync (pre ++ t :: post)
                       ++ map EvGet (pre ++ [t]) ++ [EvTerminate])).
Proof.
  intros Hn Hpre Ht.
  unfold pool_block, Pool.with_pool, Pool.init, Pool.terminate.
  rewrite (proj2 (Z.ltb_ge n 1) Hn). monad.
  rewrite submit_all_spec. monad.
  rewrite (get_all_raise _ _ _ _ _ Hpre Ht). monad.
  by rewrite <- !app_assoc.
Qed.

End PoolFacts.

(** ** Closing the logger *)

Section CloseFacts.

Lemma Logger_close_spec l w :
  exists w', Logger_close l w = (Ok tt, w')
             /\ history w' = history w /\ files w' = files w
             /\ console w' = console w /\ TABLE_EXISTS w' = TABLE_EXISTS w.
Proof. destruct l; eexists; by split. Qed.

Lemma Loggers_close_spec ls w :
  exists w', Loggers.close ls w = (Ok tt, w')
             /\ history w' = history w /\ files w' = files w
             /\ console w' = console w /\ TABLE_EXISTS w' = TABLE_EXISTS w.
Proof.
  unfold Loggers.close. revert w.
  induction ls as [|l ls IH]; intros w; simpl.
  - by eexists.
  - destruct (Logger_close_spec l w) as (w1 & Hl & Hh & Hf & Hc & Ht).
    rewrite (bind_ok _ _ _ _ _ Hl).
    destruct (IH w1) as (w2 & -> & Hh2 & Hf2 & Hc2 & Ht2).
    exists w2. repeat split; congruence.
Qed.

Lemma logger_close_spec l w :
  exists w', logger_close l w = (Ok tt, w')
             /\ history w' = history w ++ [EvLoggerClose]
             /\ files w' = files w.
Proof.
  unfold logger_close. rewrite (bind_ok _ _ _ _ _ (tell_spec _ _)).
  destruct l as [l|ls].
  - destruct (Logger_close_spec l (with_history w (history w ++ [EvLoggerClose])))
      as (w' & -> & Hh & Hf & _). by exists w'.
  - destruct (Loggers_close_spec ls (with_history w (history w ++ [EvLoggerClose])))
      as (w' & -> & Hh & Hf & _). by exists w'.
Qed.

End CloseFacts.

(** ** Histories *)

Section HistoryFacts.

Lemma since_with_history w h :
  since w (with_history w (history w ++ h)) = h.
Proof. unfold since. simpl. apply drop_app_length. Qed.

Lemma since_app w w' h :
  history w' = history w ++ h -> since w w' = h.
Proof. unfold since. intros ->. apply drop_app_length. Qed.

Lemma closes_app h1 h2 : closes (h1 ++ h2) = closes h1 + closes h2.
Proof. unfold closes. by rewrite filter_app, length_app. Qed.

Lemma closes_apply_async ts : closes (map EvApplyAsync ts) = 0.
Proof. induction ts as [|t ts IH]; [done|]. apply IH. Qed.

Lemma closes_get ts : closes (map EvGet ts) = 0.
Proof. induction ts as [|t ts IH]; [done|]. apply IH. Qed.

Lemma dispatched_app h1 h2 :
  dispatched (h1 ++ h2) = dispatched h1 ++ dispatched h2.
Proof. apply omap_app. Qed.

Lemma dispatched_apply_async ts : dispatched (map EvApplyAsync ts) = ts.
Proof. induction ts as [|t ts IH]; [done|]. simpl. by rewrite IH. Qed.

Lemma dispatched_get ts : dispatched (map EvGet ts) = [].
Proof. induction ts as [|t ts IH]; [done|]. apply IH. Qed.

Lemma awaited_app h1 h2 : awaited (h1 ++ h2) = awaited h1 ++ awaited h2.
Proof. apply omap_app. Qed.

Lemma awaited_apply_async ts : awaited (map EvApplyAsync ts) = [].
Proof. induction ts as [|t ts IH]; [done|]. apply IH. Qed.

Lemma awaited_get ts : awaited (map EvGet ts) = ts.
Proof. induction ts as [|t ts IH]; [done|]. simpl. by rewrite IH. Qed.

End HistoryFacts.

(** ** A stage run *)

Section RunStage.
Variable worker : task -> result unit.

Lemma first_failure (tasks : list task) :
  Forall (fun t => worker t = Ok tt) tasks
  \/ exists pre t post e,
       tasks = pre ++ t :: post
       /\ Forall (fun t => worker t = Ok tt) pre /\ worker t = Raise e.
Proof.
  induction tasks as [|t tasks IH]; [by left|].
  destruct (worker t) as [[]|e] eqn:Ht.
  - destruct IH as [IH | (pre & t' & post & e & -> & Hpre & Ht')].
    + left. by constructor.
    + right. exists (t :: pre), t', post, e. repeat split; [|done].
      by constructor.
  - right. by exists [], t, tasks, e.
Qed.

Lemma start_download_run_stage (self : YoutubeDownloader.t) :
  YoutubeDownloader.start_download worker self
  = run_stage worker (YoutubeDownloader.num_workers self)
      (YoutubeDownloader.tasks self) (YoutubeDownloader.logger self).
Proof. reflexivity. Qed.

Lemma separate_all_run_stage (self : MusicSeparator.t) :
  MusicSeparator.separate_all worker self
  = run_stage worker (MusicSeparator.num_workers self)
      (MusicSeparator.tasks self) (MusicSeparator.logger self).
Proof. reflexivity. Qed.

Lemma run_stage_no_pool n tasks l w :
  (n < 1)%Z -> run_stage worker n tasks l w = (Raise ValueError, w).
Proof.
  intros Hn. unfold run_stage.
  by rewrite (bind_raise _ _ _ _ _ (pool_block_no_pool worker n tasks w Hn)).
Qed.

Lemma run_stage_raise n pre t post e l w :
  (1 <= n)%Z ->
  Forall (fun t => worker t = Ok tt) pre ->
  worker t = Raise e ->
  run_stage worker n (pre ++ t :: post) l w
  = (Raise e,
     with_history w (history w ++ map EvApplyAsync (pre ++ t :: post)
                       ++ map EvGet (pre ++ [t]) ++ [EvTerminate])).
Proof.
  intros Hn Hpre Ht. unfold run_stage.
  by rewrite (bind_raise _ _ _ _ _
                (pool_block_raise worker n pre t post e w Hn Hpre Ht)).
Qed.

Lemma run_stage_ok n tasks l w :
  (1 <= n)%Z ->
  Forall (fun t => worker t = Ok tt) tasks ->
  exists w', run_stage worker n tasks l w = (Ok tt, w')
    /\ history w' = history w ++ map EvApplyAsync tasks ++ map EvGet tasks
                      ++ [EvTerminate; EvLoggerClose]
    /\ files w' = files w.
Proof.
  intros Hn Hall. unfold run_stage.
  rewrite (bind_ok _ _ _ _ _ (pool_block_ok worker n tasks w Hn Hall)).
  destruct (logger_close_spec l
              (with_history w (history w ++ map EvApplyAsync tasks
                                 ++ map EvGet tasks ++ [EvTerminate])))
    as (w' & -> & Hh & Hf).
  exists w'. split; [done|]. rewrite Hh, Hf. simpl. split; [|done].
  by rewrite <- !app_assoc.
Qed.

(** Whatever the workers report, the tasks handed to the pool are all the
    tasks of the stage, once there is a pool. *)
Lemma run_stage_dispatched n tasks l w :
  (1 <= n)%Z ->
  dispatched (since w (run_stage worker n tasks l w).2) = tasks.
Proof.
  intros Hn.
  destruct (first_failure tasks) as [Hall | (pre & t & post & e & -> & Hpre & Ht)].
  - destruct (run_stage_ok n tasks l w Hn Hall) as (w' & -> & Hh & _).
    simpl. rewrite (since_app _ _ _ Hh).
    rewrite !dispatched_app, dispatched_apply_async, dispatched_get.
    simpl. by rewrite app_nil_r.
  - rewrite (run_stage_raise n pre t post e l w Hn Hpre Ht). simpl.
    rewrite since_with_history.
    rewrite !dispatched_app, dispatched_apply_async, dispatched_get.
    simpl. by rewrite app_nil_r.
Qed.

Lemma run_stage_closes n tasks l w :
  let r := run_stage worker n tasks l w in
  ((1 <= n)%Z -> Forall (fun t => worker t = Ok tt) tasks ->
   r.1 = Ok tt /\ closes (since w r.2) = 1
   /\ last (history r.2) = Some EvLoggerClose)
  /\ (r.1 <> Ok tt -> closes (since w r.2) = 0).
Proof.
  simpl. split.
  - intros Hn Hall.
    destruct (run_stage_ok n tasks l w Hn Hall) as (w' & -> & Hh & _).
    simpl. rewrite (since_app _ _ _ Hh), Hh. repeat split.
    + by rewrite !closes_app, closes_apply_async, closes_get.
    + rewrite !app_assoc.
      change [EvTerminate; EvLoggerClose] with ([EvTerminate] ++ [EvLoggerClose]).
      rewrite app_assoc. apply last_snoc.
  - destruct (decide (n < 1)%Z) as [Hn|Hn].
    { rewrite (run_stage_no_pool n tasks l w Hn). simpl. intros _.
      unfold since. by rewrite drop_all. }
    assert (1 <= n)%Z as Hn' by lia.
    destruct (first_failure tasks)
      as [Hall | (pre & t & post & e & -> & Hpre & Ht)].
    + destruct (run_stage_ok n tasks l w Hn' Hall) as (w' & -> & _). done.
    + rewrite (run_stage_raise n pre t post e l w Hn' Hpre Ht). simpl.
      intros _. rewrite since_with_history.
      by rewrite !closes_app, closes_apply_async, closes_get.
Qed.

End RunStage.

(** ** Dispatch: which items are submitted *)

Section Dispatch.
Import YoutubeDownloader.

Lemma dict_set_elem {V} (k : string) (v : V) d : (k, v) ∈ dict_set k v d.
Proof.
  induction d as [|[k' v'] d IH]; simpl; [by left|].
  destruct (String.eqb k' k); [by left|by right].
Qed.

Lemma get_video_ids_ok ytdl self channel_id w self' w1 :
  get_video_ids ytdl self channel_id w = (Ok self', w1) ->
  exists entries,
    extract_info ytdl ("https://youtube.com/channel/" +:+ channel_id)
      = Ok entries
    /\ channel_to_video_map self'
       = dict_set channel_id (truthy_ids entries) (channel_to_video_map self)
    /\ num_workers self' = num_workers self
    /\ logger self' = logger self.
Proof.
  unfold get_video_ids. monad.
  destruct (extract_info ytdl _) as [entries|e]; [|done].
  destruct (for_each _ _ w) as [[[]|e] w']; [|done].
  intros [= <- <-]. by exists entries.
Qed.

Lemma tasks_elem self channel_id video_ids video_id :
  (channel_id, video_ids) ∈ channel_to_video_map self ->
  video_id ∈ video_ids ->
  download_audio_task channel_id video_id ∈ tasks self.
Proof.
  intros Hc Hv. unfold tasks. apply list_elem_of_bind.
  exists (channel_id, video_ids). split; [|done].
  apply list_elem_of_bind. exists video_id. split; [by left|done].
Qed.

(** C1 (as amended). Whatever the ledger records, the acquisition stage
    hands every enumerated video to the pool: after [get_video_ids] for a
    channel, [start_download] (with a pool of at least one worker) submits
    exactly the tasks of [channel_to_video_map], and every video id the
    channel listing returned is among them. No completion read filters
    them. *)
Theorem start_download_dispatches_every_enumerated_item
    ytdl worker self channel_id entries w self' w1 :
  extract_info ytdl ("https://youtube.com/channel/" +:+ channel_id)
    = Ok entries ->
  get_video_ids ytdl self channel_id w = (Ok self', w1) ->
  (1 <= num_workers self)%Z ->
  let w2 := (start_download worker self' w1).2 in
  dispatched (since w1 w2) = tasks self'
  /\ forall video_id,
       video_id ∈ truthy_ids entries ->
       download_audio_task channel_id video_id ∈ dispatched (since w1 w2).
Proof.
  intros Hentries Hget Hn.
  destruct (get_video_ids_ok _ _ _ _ _ _ Hget)
    as (entries' & Hentries' & Hmap & Hn' & _).
  assert (entries' = entries) as -> by congruence.
  simpl. rewrite start_download_run_stage.
  rewrite run_stage_dispatched by lia. split; [done|].
  intros video_id Hv. apply (tasks_elem _ channel_id (truthy_ids entries)); [|done].
  rewrite Hmap. apply dict_set_elem.
Qed.

Lemma start_download_dispatches_every_enumerated_item_witness :
  dispatched
    (since (get_video_ids two_videos ledger_stage "chA" ledger_world).2
       (start_download (ledger_pool ledger_world) ledger_stage_enumerated
          (get_video_ids two_videos ledger_stage "chA" ledger_world).2).2)
  = [download_audio_task "chA" "vid1"; download_audio_task "chA" "vid2"].
Proof.
  refine (proj1 (start_download_dispatches_every_enumerated_item
            two_videos (ledger_pool ledger_world) ledger_stage "chA"
            [Some "vid1"; Some "vid2"] ledger_world ledger_stage_enumerated
            (get_video_ids two_videos ledger_stage "chA" ledger_world).2
            _ _ _)).
  - reflexivity.
  - vm_compute. reflexivity.
  - simpl. lia.
Defined.

(** C1, counterexample. [vid1] is marked complete in the ledger, is
    enumerated again, and is handed to the pool all the same, first of the
    two; the enumeration has moreover logged it incomplete again. (The
    stage holds a [DatabaseLogger], so the run then ends at the first
    [process.get()] with the TypeError of the pickling.) *)
Lemma resumable_skip_counterexample :
  spec_isComplete ledger_world "logs.db" "chA" "vid1" "YoutubeDownloader" = true
  /\ exists w1 w2,
       get_video_ids two_videos ledger_stage "chA" ledger_world
       = (Ok ledger_stage_enumerated, w1)
       /\ start_download (ledger_pool w1) ledger_stage_enumerated w1
          = (Raise TypeError, w2)
       /\ dispatched (history w2)
          = [download_audio_task "chA" "vid1"; download_audio_task "chA" "vid2"]
       /\ spec_isComplete w2 "logs.db" "chA" "vid1" "YoutubeDownloader" = false.
Proof.
  split; [reflexivity|].
  do 2 eexists. split; [vm_compute; reflexivity|].
  split; [vm_compute; reflexivity|].
  split; vm_compute; reflexivity.
Qed.

(** C2 (as amended). When a job raises, the wait loop re-raises that error
    to the caller at that item's turn: every task was submitted, the tasks
    before it were awaited, the tasks after it are not, the pool is
    terminated, the logger is not closed and no list of outcomes is
    returned.
    This holds for [start_download] and for [separate_all]. *)
Theorem dispatch_aborts_at_first_failure worker pre t post e w :
  Forall (fun t => worker t = Ok tt) pre ->
  worker t = Raise e ->
  let w' := with_history w
              (history w ++ map EvApplyAsync (pre ++ t :: post)
                 ++ map EvGet (pre ++ [t]) ++ [EvTerminate]) in
  (forall self : YoutubeDownloader.t,
      (1 <= num_workers self)%Z ->
      tasks self = pre ++ t :: post ->
      start_download worker self w = (Raise e, w'))
  /\ (forall self : MusicSeparator.t,
      (1 <= MusicSeparator.num_workers self)%Z ->
      MusicSeparator.tasks self = pre ++ t :: post ->
      MusicSeparator.separate_all worker self w = (Raise e, w')).
Proof.
  intros Hpre Ht. simpl. split; intros self Hn Htasks.
  - rewrite start_download_run_stage, Htasks.
    by apply run_stage_raise.
  - rewrite separate_all_run_stage, Htasks.
    by apply run_stage_raise.
Qed.

Lemma dispatch_aborts_at_first_failure_witness :
  start_download (fails_on "v3") five_items empty_world
  = (Raise (ExternalError "download failed"),
     with_history empty_world
       (map EvApplyAsync (tasks five_items)
        ++ map EvGet [download_audio_task "chA" "v1";
                      download_audio_task "chA" "v2";
                      download_audio_task "chA" "v3"]
        ++ [EvTerminate])).
Proof.
  refine (proj1 (dispatch_aborts_at_first_failure (fails_on "v3")
            [download_audio_task "chA" "v1"; download_audio_task "chA" "v2"]
            (download_audio_task "chA" "v3")
            [download_audio_task "chA" "v4"; download_audio_task "chA" "v5"]
            (ExternalError "download failed") empty_world _ _)
            five_items _ _).
  - repeat constructor.
  - reflexivity.
  - simpl. lia.
  - reflexivity.
Defined.

(** C2, counterexample. Five items, the job of the third always raises:
    the caller gets that error, not five outcomes, and the fourth and
    fifth results are never awaited. *)
Lemma isolation_counterexample :
  (start_download (fails_on "v3") five_items empty_world).1
  = Raise (ExternalError "download failed")
  /\ awaited (history (start_download (fails_on "v3") five_items empty_world).2)
     = [download_audio_task "chA" "v1"; download_audio_task "chA" "v2";
        download_audio_task "chA" "v3"].
Proof. split; vm_compute; reflexivity. Qed.

(** C6. With [num_workers = 0] the pool cannot be constructed: the run
    raises ValueError before any task is submitted, for [start_download] and
    for [separate_all]. *)
Theorem zero_workers_pool_construction_fails worker w :
  (forall ids dir map lg kwargs,
      start_download worker (YoutubeDownloader.mk ids dir 0 map lg kwargs) w
      = (Raise ValueError, w))
  /\ (forall inp out paths lg,
      MusicSeparator.separate_all worker
        (MusicSeparator.mk inp out paths 0 lg) w
      = (Raise ValueError, w)).
Proof. split; reflexivity. Qed.

(** The worker count is 0 when the configuration gives none. *)
Lemma init_default_num_workers read_lines ids file dir kwargs lg self :
  init read_lines (mkCfg ids file dir None kwargs) lg = Ok self ->
  num_workers self = 0%Z.
Proof.
  unfold init. simpl.
  destruct (_ && _); [done|].
  destruct file as [f|]; simpl.
  - destruct (String.eqb f ""); simpl; [by intros [= <-]|].
    destruct (read_lines f); simpl; [|done].
    destruct ids; simpl; [done|by intros [= <-]].
  - by intros [= <-].
Qed.

(** C7 (as amended). [self.logger.close()] is called exactly once, as the
    last call of the run, when the pool could be constructed and every
    awaited job returned; on every exit path that raises (no pool, or a job
    that raised) it is not called at all. This holds for [start_download]
    and for [separate_all]. *)
Theorem logger_close_once_on_normal_exit_only worker w :
  (forall self : YoutubeDownloader.t,
      let r := start_download worker self w in
      ((1 <= num_workers self)%Z ->
       Forall (fun t => worker t = Ok tt) (tasks self) ->
       r.1 = Ok tt /\ closes (since w r.2) = 1
       /\ last (history r.2) = Some EvLoggerClose)
      /\ (r.1 <> Ok tt -> closes (since w r.2) = 0))
  /\ (forall self : MusicSeparator.t,
      let r := MusicSeparator.separate_all worker self w in
      ((1 <= MusicSeparator.num_workers self)%Z ->
       Forall (fun t => worker t = Ok tt) (MusicSeparator.tasks self) ->
       r.1 = Ok tt /\ closes (since w r.2) = 1
       /\ last (history r.2) = Some EvLoggerClose)
      /\ (r.1 <> Ok tt -> closes (since w r.2) = 0)).
Proof.
  split; intros self.
  - rewrite start_download_run_stage. apply run_stage_closes.
  - rewrite separate_all_run_stage. apply run_stage_closes.
Qed.

Lemma logger_close_once_on_normal_exit_only_witness :
  closes (since empty_world
            (start_download always_ok five_items empty_world).2) = 1
  /\ closes (since empty_world
               (start_download (fails_on "v3") five_items empty_world).2) = 0.
Proof.
  split.
  - refine (proj1 (proj2 (proj1 (proj1 (logger_close_once_on_normal_exit_only
              always_ok empty_world) five_items) _ _))).
    + simpl. lia.
    + repeat constructor.
  - refine (proj2 (proj1 (logger_close_once_on_normal_exit_only
              (fails_on "v3") empty_world) five_items) _).
    vm_compute. discriminate.
Defined.

(** C7, counterexample. The job of the first of five items raises during
    dispatch: the run exits with the error once the pool is terminated, and
    [close] was never called. *)
Lemma close_on_failure_counterexample :
  let r := start_download (fails_on "v1") five_items empty_world in
  r.1 = Raise (ExternalError "download failed")
  /\ closes (history r.2) = 0
  /\ history r.2
     = map EvApplyAsync (tasks five_items)
       ++ [EvGet (download_audio_task "chA" "v1"); EvTerminate].
Proof. vm_compute. done. Qed.

End Dispatch.

(** ** The durable sink *)

Section DatabaseLoggerFacts.

Lemma rows_for_besides v rows : rows_for v (rows_besides v rows) = [].
Proof.
  unfold rows_for, rows_besides.
  induction rows as [|x rows IH]; [done|].
  rewrite filter_cons. case_decide as Hx; [|done].
  rewrite filter_cons. by case_decide.
Qed.

Lemma rows_besides_idemp v rows :
  rows_besides v (rows_besides v rows) = rows_besides v rows.
Proof.
  unfold rows_besides.
  induction rows as [|x rows IH]; [done|].
  rewrite filter_cons. case_decide as Hx; [|done].
  rewrite filter_cons. case_decide; [|done]. by rewrite IH.
Qed.

Lemma rows_for_replace_row r rows :
  rows_for (Video_ID r) (Sqlite.replace_row r rows) = [r].
Proof.
  unfold Sqlite.replace_row.
  change (filter (fun r' => Video_ID r' <> Video_ID r) rows)
    with (rows_besides (Video_ID r) rows).
  unfold rows_for at 1. rewrite filter_app.
  change (filter (fun r0 => Video_ID r0 = Video_ID r)
            (rows_besides (Video_ID r) rows))
    with (rows_for (Video_ID r) (rows_besides (Video_ID r) rows)).
  rewrite rows_for_besides. simpl.
  rewrite filter_cons. by case_decide.
Qed.

Lemma rows_besides_replace_row r rows :
  rows_besides (Video_ID r) (Sqlite.replace_row r rows)
  = rows_besides (Video_ID r) rows.
Proof.
  unfold Sqlite.replace_row.
  change (filter (fun r' => Video_ID r' <> Video_ID r) rows)
    with (rows_besides (Video_ID r) rows).
  unfold rows_besides at 1. rewrite filter_app.
  change (filter (fun r0 => Video_ID r0 <> Video_ID r)
            (rows_besides (Video_ID r) rows))
    with (rows_besides (Video_ID r) (rows_besides (Video_ID r) rows)).
  rewrite rows_besides_idemp.
  rewrite filter_cons. case_decide; [done|]. simpl. apply app_nil_r.
Qed.

(** Rows of other videos pass through a replacement untouched. *)
Lemma rows_for_replace_row_other r v rows :
  Video_ID r <> v ->
  rows_for v (Sqlite.replace_row r rows) = rows_for v rows.
Proof.
  intros Hne. unfold Sqlite.replace_row, rows_for. rewrite filter_app.
  rewrite (filter_cons _ r). case_decide; [done|]. simpl. rewrite app_nil_r.
  induction rows as [|x rows IH]; [done|].
  rewrite (filter_cons _ x rows). case_decide as Hx.
  - rewrite !filter_cons. case_decide; by rewrite IH.
  - rewrite (filter_cons _ x rows). case_decide; [|done].
    exfalso. apply Hne. congruence.
Qed.

Lemma table_known_spec w f ctx :
  table_known w f ctx = true ->
  ctx ∈ TABLE_EXISTS w ->
  exists rows, database_of w f !! table_key ctx = Some rows.
Proof.
  unfold table_known. intros H Hin.
  apply orb_true_iff in H as [H|H].
  - apply negb_true_iff, bool_decide_eq_false in H. done.
  - apply bool_decide_eq_true in H. destruct H as [rows H]. by exists rows.
Qed.

(** One call of [DatabaseLogger.log] on an open connection, for a stage
    name and a status that SQLite takes. *)
Lemma DatabaseLogger_log_spec c f s ch vid ctx w :
  connections w !! c = Some (mkConnection f false) ->
  table_known w f ctx = true ->
  stage_name_ok ctx = true ->
  status_ok s = true ->
  exists w',
    DatabaseLogger.log c s ch vid ctx w = (Ok tt, w')
    /\ connections w' = connections w
    /\ ctx ∈ TABLE_EXISTS w'
    /\ database_of w' f !! table_key ctx
       = Some (Sqlite.replace_row (mkRow (status_int s) ch vid)
                 (rows_of w f ctx))
    /\ console w' = console w /\ history w' = history w.
Proof.
  unfold stage_name_ok, status_ok, table_key.
  intros Hc Hk Hname Hint. unfold DatabaseLogger.log. monad.
  case_bool_decide as Hin.
  - destruct (table_known_spec _ _ _ Hk Hin) as [rows Hrows].
    unfold Sqlite.execute, Sqlite.commit, Sqlite.insert_or_replace. monad.
    rewrite Hc, Hname, Hint. unfold database_of, table_key in Hrows.
    rewrite Hrows. monad.
    rewrite Hc. eexists. split; [done|]. simpl.
    unfold rows_of, database_of, table_key. simpl. rewrite Hrows. simpl.
    rewrite !lookup_insert_eq. simpl. rewrite lookup_insert_eq. done.
  - unfold DatabaseLogger.create_table, Sqlite.execute, Sqlite.commit,
      Sqlite.create_table_if_not_exists, Sqlite.insert_or_replace. monad.
    rewrite Hc, Hname. unfold rows_of, database_of, table_key.
    destruct (default ∅ (files w !! f) !! Sqlite.fold_case (ctx +:+ "_logs"))
      as [rows|] eqn:Hrows;
      monad; rewrite Hc; monad; rewrite Hc; monad; rewrite !lookup_insert_eq;
      simpl.
    + rewrite Hrows, Hint. monad. rewrite Hc. eexists. split; [done|]. simpl.
      rewrite !lookup_insert_eq. simpl. rewrite lookup_insert_eq.
      repeat split; try done. set_solver.
    + rewrite lookup_insert_eq, Hint. monad. rewrite Hc. eexists.
      split; [done|].
      simpl. rewrite !lookup_insert_eq. simpl. rewrite lookup_insert_eq.
      repeat split; try done. set_solver.
Qed.

End DatabaseLoggerFacts.

Section Upsert.

Lemma table_known_after w f ctx rows :
  database_of w f !! table_key ctx = Some rows ->
  table_known w f ctx = true.
Proof.
  intros H. unfold table_known. rewrite H.
  rewrite (bool_decide_eq_true_2 (is_Some (Some rows))) by eauto.
  apply orb_true_r.
Qed.

Lemma rows_of_after w f ctx rows :
  database_of w f !! table_key ctx = Some rows -> rows_of w f ctx = rows.
Proof. intros H. unfold rows_of. by rewrite H. Qed.

Lemma log_writes_ok c f ctx vid (writes : list (status_t * string)) w :
  connections w !! c = Some (mkConnection f false) ->
  table_known w f ctx = true ->
  stage_name_ok ctx = true ->
  Forall (fun x => status_ok x.1 = true) writes ->
  exists w',
    for_each writes (fun x => DatabaseLogger.log c x.1 x.2 vid ctx) w
      = (Ok tt, w')
    /\ connections w' = connections w
    /\ table_known w' f ctx = true
    /\ rows_besides vid (rows_of w' f ctx) = rows_besides vid (rows_of w f ctx).
Proof.
  intros Hc Hk Hname Hint. revert w Hc Hk.
  induction Hint as [|[s ch] writes Hs Hint IH]; intros w Hc Hk.
  - by exists w.
  - destruct (DatabaseLogger_log_spec c f s ch vid ctx w Hc Hk Hname Hs)
      as (w1 & Hlog & Hc1 & _ & Hrows & _).
    simpl. rewrite (bind_ok _ _ _ _ _ Hlog).
    destruct (IH w1) as (w' & -> & Hc' & Hk' & Hb).
    + by rewrite Hc1.
    + by eapply table_known_after.
    + exists w'. repeat split; [congruence|done|].
      rewrite Hb, (rows_of_after _ _ _ _ Hrows).
      apply (rows_besides_replace_row (mkRow (status_int s) ch vid)).
Qed.

(** C8 (as amended). Logging the same video id for the same stage any
    number of times through an open [DatabaseLogger], with varying status
    and channel id, where the stage name gives a table name and every
    status fits the 64 bits of an SQLite integer, leaves exactly one row
    for that video id in the stage's table, holding the last logged status
    and channel id, and leaves the rows of every other video id as they
    were: the upsert is keyed by the video id within the stage's table. *)
Theorem DatabaseLogger_log_upsert_by_video_id
    c f ctx video_id (writes : list (status_t * string)) s ch w :
  connections w !! c = Some (mkConnection f false) ->
  table_known w f ctx = true ->
  stage_name_ok ctx = true ->
  Forall (fun x => status_ok x.1 = true) (writes ++ [(s, ch)]) ->
  exists w',
    for_each (writes ++ [(s, ch)])
      (fun x => DatabaseLogger.log c x.1 x.2 video_id ctx) w = (Ok tt, w')
    /\ rows_for video_id (rows_of w' f ctx)
       = [mkRow (status_int s) ch video_id]
    /\ rows_besides video_id (rows_of w' f ctx)
       = rows_besides video_id (rows_of w f ctx).
Proof.
  intros Hc Hk Hname Hint. rewrite for_each_app.
  apply Forall_app in Hint as [Hwrites Hs].
  apply Forall_cons in Hs as [Hs _].
  destruct (log_writes_ok c f ctx video_id writes w Hc Hk Hname Hwrites)
    as (w1 & -> & Hc1 & Hk1 & Hb1).
  rewrite <- Hc1 in Hc.
  destruct (DatabaseLogger_log_spec c f s ch video_id ctx w1 Hc Hk1 Hname Hs)
    as (w' & Hlog & _ & _ & Hrows & _).
  exists w'. simpl. rewrite (bind_ok _ _ _ _ _ Hlog). split; [done|].
  rewrite (rows_of_after _ _ _ _ Hrows). split.
  - apply (rows_for_replace_row (mkRow (status_int s) ch video_id)).
  - rewrite <- Hb1.
    apply (rows_besides_replace_row (mkRow (status_int s) ch video_id)).
Qed.

Lemma DatabaseLogger_log_upsert_by_video_id_witness :
  exists w',
    for_each ([(PyBool false, "chA"); (PyInt 0, "chA")] ++ [(PyBool true, "chA")])
      (fun x => DatabaseLogger.log 0 x.1 x.2 "vid1" "YoutubeDownloader")
      fresh_ledger_world = (Ok tt, w')
    /\ rows_for "vid1" (rows_of w' "logs.db" "YoutubeDownloader")
       = [mkRow 1 "chA" "vid1"]
    /\ rows_besides "vid1" (rows_of w' "logs.db" "YoutubeDownloader")
       = rows_besides "vid1"
           (rows_of fresh_ledger_world "logs.db" "YoutubeDownloader").
Proof.
  apply (DatabaseLogger_log_upsert_by_video_id 0 "logs.db" "YoutubeDownloader"
           "vid1" [(PyBool false, "chA"); (PyInt 0, "chA")] (PyBool true) "chA"
           fresh_ledger_world).
  - reflexivity.
  - reflexivity.
  - reflexivity.
  - repeat constructor.
Defined.

(** C8, counterexample. Two writes for the distinct composite keys
    [(chA, v1, Stage)] and [(chB, v1, Stage)] leave one row, not two: the
    second replaced the first. *)
Lemma distinct_keys_share_a_row_counterexample :
  exists w',
    (DatabaseLogger.log 0 (PyBool true) "chA" "v1" "Stage" ;;
     DatabaseLogger.log 0 (PyBool false) "chB" "v1" "Stage") fresh_ledger_world
    = (Ok tt, w')
    /\ rows_of w' "logs.db" "Stage" = [mkRow 0 "chB" "v1"].
Proof. eexists. split; vm_compute; reflexivity. Qed.

End Upsert.

(** ** The multi-sink ledger *)

Section LoggersFacts.

Lemma ConsoleLogger_log_spec s ch vid w :
  ConsoleLogger.log s ch vid w
  = (Ok tt, set_console (fun out =>
              out ++ replicate (console_handlers w)
                       (ConsoleLogger.message s ch vid)) w).
Proof. reflexivity. Qed.

(** C4. A stage logs through [Loggers] with four arguments, [Loggers.log]
    takes three: the call raises TypeError before any sink is reached. And
    [Loggers.log] itself calls every sink with three arguments, of which
    [DatabaseLogger.log] needs four: with a durable sink among the sinks the
    call raises TypeError and the ledger files are left as they were, so no
    record is ever upserted through [Loggers]. *)
Theorem Loggers_log_never_reaches_the_database
    loggers status channel_id video_id w :
  (forall ctx,
      logger_log (a_Loggers loggers) status channel_id video_id [ctx] w
      = (Raise TypeError, w))
  /\ (forall c,
      DatabaseLogger_obj c ∈ loggers ->
      let r := Loggers.log loggers status channel_id video_id [] w in
      r.1 = Raise TypeError /\ files r.2 = files w).
Proof.
  split; [done|].
  intros c Hin. simpl. unfold Loggers.log. revert w.
  induction loggers as [|l loggers IH]; intros w.
  - by apply elem_of_nil in Hin.
  - destruct l as [c'|]; [done|].
    apply elem_of_cons in Hin as [Hin|Hin]; [done|].
    simpl. rewrite (bind_ok _ _ _ _ _ (ConsoleLogger_log_spec _ _ _ _)).
    destruct (IH Hin (set_console (fun out =>
                out ++ replicate (console_handlers w)
                         (ConsoleLogger.message status channel_id video_id)) w))
      as [Hr Hf].
    split; [exact Hr|]. by rewrite Hf.
Qed.

Lemma Loggers_log_never_reaches_the_database_witness :
  Loggers.log [DatabaseLogger_obj 0; ConsoleLogger_obj] (PyBool false)
    "chA" "vid1" [] fresh_ledger_world
  = (Raise TypeError, fresh_ledger_world)
  /\ (Loggers.log [ConsoleLogger_obj; DatabaseLogger_obj 0] (PyBool false)
        "chA" "vid1" [] fresh_ledger_world).1 = Raise TypeError.
Proof.
  split; [reflexivity|].
  refine (proj1 (proj2 (Loggers_log_never_reaches_the_database
            [ConsoleLogger_obj; DatabaseLogger_obj 0] (PyBool false)
            "chA" "vid1" fresh_ledger_world) 0 _)).
  right. left.
Defined.

(** C5 (as amended). When one sink's [log] raises, the sinks configured
    before it have received the event, the error propagates to the caller
    of [Loggers.log], and the sinks configured after it are not called: the
    world is left as the failing sink left it. *)
Theorem Loggers_log_stops_at_first_failing_sink
    pre sink post status channel_id video_id e w w1 w2 :
  for_each pre (fun l => Logger_log l status channel_id video_id []) w
    = (Ok tt, w1) ->
  Logger_log sink status channel_id video_id [] w1 = (Raise e, w2) ->
  Loggers.log (pre ++ sink :: post) status channel_id video_id [] w
  = (Raise e, w2).
Proof.
  intros Hpre Hsink. unfold Loggers.log. rewrite for_each_app, Hpre.
  simpl. by rewrite (bind_raise _ _ _ _ _ Hsink).
Qed.

Lemma Loggers_log_stops_at_first_failing_sink_witness :
  Loggers.log ([ConsoleLogger_obj] ++ DatabaseLogger_obj 0 :: [ConsoleLogger_obj])
    (PyBool true) "chA" "vid1" [] fresh_ledger_world
  = (Raise TypeError,
     set_console (fun _ => ["Status: True, Channel ID: chA, Video ID: vid1"])
       fresh_ledger_world).
Proof.
  apply (Loggers_log_stops_at_first_failing_sink
           [ConsoleLogger_obj] (DatabaseLogger_obj 0) [ConsoleLogger_obj]
           (PyBool true) "chA" "vid1" TypeError fresh_ledger_world
           (set_console
              (fun _ => ["Status: True, Channel ID: chA, Video ID: vid1"])
              fresh_ledger_world)).
  - reflexivity.
  - reflexivity.
Defined.

(** C5, counterexample. The durable sink is configured first and raises;
    the console sink configured after it receives nothing. *)
Lemma sink_failure_counterexample :
  Loggers.log [DatabaseLogger_obj 0; ConsoleLogger_obj] (PyBool true)
    "chA" "vid1" [] fresh_ledger_world
  = (Raise TypeError, fresh_ledger_world)
  /\ console fresh_ledger_world = [].
Proof. split; reflexivity. Qed.

End LoggersFacts.

(** ** The identity the separation stage derives from a path *)

Section PathIdentity.
Import Pathlib.




(** The row [separate_audio] writes for [{root}/chA/vid1/title_vid1.wav]
    has [vid1] as channel and [chA] as video. *)
Lemma separate_audio_logs_swapped_identity :
  exists w',
    MusicSeparator.separate_audio (separator_env tree_of_audio_files)
      separator_on_ledger
      (a_Path (mkPath "/" ["data"; "chA"; "vid1"; "title_vid1.wav"]))
      fresh_ledger_world = (Ok tt, w')
    /\ rows_of w' "logs.db" "MusicSeparator" = [mkRow 1 "vid1" "chA"].
Proof. eexists. split; vm_compute; reflexivity. Qed.

End PathIdentity.

(** ** The candidate files of the separation and detection stages *)

Section Candidates.

Lemma list_bind_nil {A B} (f : A -> list B) (l : list A) :
  (forall x, x ∈ l -> f x = []) -> l ≫= f = [].
Proof.
  induction l as [|x l IH]; intros H; [done|].
  simpl. rewrite (H x) by (by left). simpl.
  apply IH. intros y Hy. apply H. by right.
Qed.

Lemma forallb_elem {A} (p : A -> bool) (l : list A) x :
  forallb p l = true -> x ∈ l -> p x = true.
Proof.
  intros H Hx. apply list_elem_of_In in Hx.
  by apply (proj1 (forallb_forall p l) H).
Qed.

Lemma lexists_false dir basename :
  forallb (fun e => negb (String.eqb e.1 basename)) (Glob.entries_of dir)
    = true ->
  Glob._lexists dir basename = false.
Proof.
  unfold Glob._lexists. induction (Glob.entries_of dir) as [|e l IH]; [done|].
  simpl. intros H. apply andb_true_iff in H as [He Hl].
  apply negb_true_iff in He. rewrite He. simpl. by apply IH.
Qed.

Lemma glob1_star_elem dir dironly e :
  e ∈ Glob._glob1_star dir dironly -> e ∈ Glob.entries_of dir.
Proof.
  unfold Glob._glob1_star, Glob._listdir. intros H.
  apply list_elem_of_filter in H as [_ H].
  destruct dironly; [|done].
  by apply list_elem_of_filter in H as [_ H].
Qed.

Lemma glob_wav_nil in_path dir :
  no_entry_named_wav dir = true -> Glob.glob_wav in_path dir = [].
Proof.
  intros Hno. unfold Glob.glob_wav.
  apply list_bind_nil. intros d1 Hd1.
  apply list_bind_nil. intros d2 Hd2.
  apply glob1_star_elem in Hd1, Hd2.
  pose proof (forallb_elem _ _ _ Hno Hd1) as H1. simpl in H1.
  pose proof (forallb_elem _ _ _ H1 Hd2) as H2. simpl in H2.
  unfold Glob._glob0. by rewrite (lexists_false _ _ H2).
Qed.

(** C9 (as amended). For every tree in which no file and no directory two
    levels below [in_path] is named just [.wav], and an [in_path] that glob
    takes as it is written (none of its characters is read as a pattern),
    the pattern [{in_path}/*/*/.wav] matches nothing; the separation stage
    constructed on such a tree has an empty candidate list and hands no
    task to its pool. *)
Theorem wav_pattern_matches_nothing dir :
  no_entry_named_wav dir = true ->
  (forall in_path,
      Glob.literal in_path = true -> Glob.glob_wav in_path dir = [])
  /\ (forall env cfg lg self,
        Glob.literal (Pathlib.render (MusicSeparator.cfg_in_path cfg))
          = true ->
        MusicSeparator.at_in_path env = Some dir ->
        MusicSeparator.init env cfg lg = Ok self ->
        MusicSeparator.audio_filepaths self = []
        /\ forall worker w,
             dispatched
               (since w (MusicSeparator.separate_all worker self w).2) = []).
Proof.
  intros Hno. split; [intros in_path _; by apply glob_wav_nil|].
  intros env cfg lg self _ Hdir. unfold MusicSeparator.init. rewrite Hdir.
  destruct (MusicSeparator.mkdir_out_path env) as [[]|e]; simpl; [|done].
  intros [= <-]. simpl. rewrite (glob_wav_nil _ _ Hno). split; [done|].
  intros worker w. rewrite separate_all_run_stage. simpl.
  destruct (decide (default 0 (MusicSeparator.cfg_num_workers cfg) < 1)%Z)
    as [Hn|Hn].
  - rewrite run_stage_no_pool by done. unfold since. simpl.
    by rewrite drop_all.
  - by rewrite run_stage_dispatched by lia.
Qed.

Lemma wav_pattern_matches_nothing_witness :
  Glob.glob_wav "data" tree_of_audio_files = []
  /\ exists self,
       MusicSeparator.init (separator_env tree_of_audio_files) separator_cfg
         (a_Logger ConsoleLogger_obj) = Ok self
       /\ MusicSeparator.audio_filepaths self = [].
Proof.
  split.
  - apply (proj1 (wav_pattern_matches_nothing tree_of_audio_files eq_refl)).
    reflexivity.
  - eexists. split; [reflexivity|].
    refine (proj1 (proj2 (wav_pattern_matches_nothing tree_of_audio_files
              eq_refl) (separator_env tree_of_audio_files) separator_cfg
              (a_Logger ConsoleLogger_obj) _ eq_refl eq_refl eq_refl)).
Defined.

(** The constructor of the detection stage never returns:
    [update_vad_config] reads [self.out_path] before it is set. *)
Lemma VAD_init_never_returns env cfg lg : is_ok (VAD.init env cfg lg) = false.
Proof.
  unfold VAD.init. by destruct (VAD.OmegaConf_load env _).
Qed.

(** C9, counterexample. Every audio file of the tree has a stem and
    [in_path] is the plain [data], yet the pattern matches the directory
    named [.wav]: the separation stage has one candidate and hands it to
    the pool. The detection stage builds no list at all. *)
Lemma wav_pattern_counterexample :
  audio_files_have_stem tree_with_wav_directory = true
  /\ Glob.literal (Pathlib.render (MusicSeparator.cfg_in_path separator_cfg))
     = true
  /\ (exists self,
        MusicSeparator.init (separator_env tree_with_wav_directory)
          separator_cfg (a_Logger ConsoleLogger_obj) = Ok self
        /\ MusicSeparator.audio_filepaths self = ["data/chA/vid2/.wav"]
        /\ dispatched
             (history
                (MusicSeparator.separate_all
                   (pool_report (MusicSeparator.logger self)
                      (MusicSeparator.run_task
                         (separator_env tree_with_wav_directory) self)
                      empty_world)
                   self empty_world).2)
           = [separate_audio_task "data/chA/vid2/.wav"])
  /\ is_ok (VAD.init
              (VAD.mkCollaborators (fun _ => Ok (VAD.mkVadConfig 50 50 0 1))
                 (Some tree_of_audio_files) "/tmp/manifest.json"
                 (fun _ => Ok (VAD.mkDiarizer "out" "")))
              (VAD.mkCfg "vad.yaml" "data" None None None)
              (a_Logger ConsoleLogger_obj)) = false.
Proof.
  split; [reflexivity|]. split; [reflexivity|]. split; [|reflexivity].
  eexists. split; [reflexivity|]. split; reflexivity.
Qed.

(** Every task of the separation stage raises in its worker: the string
    [args] is unpacked into its characters, and a single character, being a
    [str], has no [parent]. *)
Lemma separate_audio_task_always_raises env self args w :
  is_ok (worker_of (MusicSeparator.run_task env self) w
           (separate_audio_task args)) = false.
Proof.
  unfold worker_of, MusicSeparator.run_task.
  destruct args as [|c [|c' args]]; [done| |done].
  unfold MusicSeparator.separate_audio. monad.
  destruct (MusicSeparator.isfile env _); [|done]. monad.
  by destruct (MusicSeparator.demucs_separate_main env _ _).
Qed.

End Candidates.

(** * Further properties of the code *)

(** ** The durable sink: errors, invariants, what a write leaves alone *)

Section DatabaseLoggerMore.

Lemma video_ids_replace_row r rows :
  video_ids (Sqlite.replace_row r rows)
  = filter (fun v => v <> Video_ID r) (video_ids rows) ++ [Video_ID r].
Proof.
  unfold video_ids, Sqlite.replace_row. rewrite fmap_app. simpl. f_equal.
  induction rows as [|x rows IH]; [done|].
  rewrite fmap_cons, !filter_cons.
  case_decide; [by rewrite fmap_cons, IH|done].
Qed.

Lemma NoDup_filter_snoc (v : string) (l : list string) :
  NoDup l -> NoDup (filter (fun x => x <> v) l ++ [v]).
Proof.
  intros Hl. apply NoDup_app. split; [by apply NoDup_filter|].
  split; [|apply NoDup_singleton].
  intros x Hx Hv. apply list_elem_of_filter in Hx as [Hne _].
  apply list_elem_of_singleton in Hv. done.
Qed.

Lemma length_filter_ne (v : string) (l : list string) :
  NoDup l ->
  length (filter (fun x => x <> v) l)
  = if bool_decide (v ∈ l) then length l - 1 else length l.
Proof.
  induction 1 as [|x l Hx Hl IH]; [done|].
  rewrite filter_cons. destruct (decide (x <> v)) as [Hxv|Hxv].
  - simpl. rewrite IH.
    destruct (decide (v ∈ l)) as [Hin|Hin].
    + rewrite !bool_decide_eq_true_2; [|by right|done].
      destruct l; [by apply elem_of_nil in Hin|simpl; lia].
    + rewrite !bool_decide_eq_false_2; [done| |done].
      intros [Heq|Hin']%elem_of_cons; [by apply Hxv|done].
  - assert (x = v) as -> by (destruct (decide (x = v)); tauto).
    rewrite IH. rewrite (bool_decide_eq_false_2 _ Hx).
    rewrite bool_decide_eq_true_2 by (by left). simpl. lia.
Qed.

(** What a call of [DatabaseLogger.log] leaves alone, however it ends and
    whatever the connection and the tables are. *)
Lemma DatabaseLogger_log_frame c f cl s ch vid ctx w :
  connections w !! c = Some (mkConnection f cl) ->
  let r := DatabaseLogger.log c s ch vid ctx w in
  connections r.2 = connections w
  /\ console r.2 = console w /\ history r.2 = history w
  /\ console_handlers r.2 = console_handlers w
  /\ (TABLE_EXISTS r.2 = TABLE_EXISTS w
      \/ ((ctx ∉ TABLE_EXISTS w)
          /\ TABLE_EXISTS r.2 = TABLE_EXISTS w ++ [ctx]))
  /\ (forall f', f' <> f -> files r.2 !! f' = files w !! f')
  /\ (forall k, k <> table_key ctx ->
        database_of r.2 f !! k = database_of w f !! k).
Proof.
  intros Hc. simpl. unfold table_key, database_of.
  unfold DatabaseLogger.log, DatabaseLogger.create_table,
    Sqlite.execute, Sqlite.commit, Sqlite.create_table_if_not_exists,
    Sqlite.insert_or_replace. monad.
  case_bool_decide as Hin; monad; rewrite ?Hc.
  - destruct cl. { simpl. repeat split; try done; by left. }
    destruct (Sqlite.table_name (ctx +:+ "_logs")) eqn:Hname.
    2:{ simpl. repeat split; try done; by left. }
    destruct (default ∅ (files w !! f) !! Sqlite.fold_case (ctx +:+ "_logs"))
      as [rows|] eqn:Hrows; monad;
      [|repeat split; try done; by left].
    destruct (Sqlite.int64 (status_int s)); monad;
      [|repeat split; try done; by left].
    rewrite Hc. simpl. repeat split; try done.
    + by left.
    + intros f' Hf. by rewrite lookup_insert_ne.
    + intros k Hk. rewrite lookup_insert_eq. simpl.
      by rewrite lookup_insert_ne.
  - destruct cl. { simpl. repeat split; try done; by left. }
    destruct (Sqlite.table_name (ctx +:+ "_logs")) eqn:Hname.
    2:{ simpl. repeat split; try done; by left. }
    destruct (default ∅ (files w !! f) !! Sqlite.fold_case (ctx +:+ "_logs"))
      as [rows|] eqn:Hrows; monad; rewrite Hc; monad; rewrite Hc; monad;
      rewrite !lookup_insert_eq; simpl.
    + rewrite Hrows.
      destruct (Sqlite.int64 (status_int s)); monad; rewrite ?Hc; simpl;
        (repeat split; try done; try (by right);
         try (intros f' Hf; by rewrite ?lookup_insert_ne);
         intros k Hk; rewrite ?lookup_insert_eq; simpl;
         by rewrite ?lookup_insert_ne).
    + rewrite lookup_insert_eq.
      destruct (Sqlite.int64 (status_int s)); monad; rewrite ?Hc; simpl;
        (repeat split; try done; try (by right);
         try (intros f' Hf; by rewrite ?lookup_insert_ne);
         intros k Hk; rewrite ?lookup_insert_eq; simpl;
         by rewrite ?lookup_insert_ne).
Qed.

(** X1. Once [close] was called on a [DatabaseLogger], every later [log]
    raises (sqlite3.ProgrammingError) and writes nothing: the world is left
    as [close] left it. *)
Theorem DatabaseLogger_log_after_close_raises
    c k status channel_id video_id ctx w :
  connections w !! c = Some k ->
  exists w1,
    DatabaseLogger.close c w = (Ok tt, w1)
    /\ connections w1 !! c = Some (mkConnection (db_file k) true)
    /\ files w1 = files w
    /\ DatabaseLogger.log c status channel_id video_id ctx w1
       = (Raise ProgrammingError, w1).
Proof.
  intros Hc. eexists. split; [reflexivity|]. simpl.
  assert (alter (fun k0 => mkConnection (db_file k0) true) c (connections w)
            !! c = Some (mkConnection (db_file k) true)) as Hc1.
  { by rewrite lookup_alter_eq, Hc. }
  split; [exact Hc1|]. split; [done|].
  unfold DatabaseLogger.log, DatabaseLogger.create_table,
    Sqlite.execute, Sqlite.commit. monad.
  case_bool_decide; monad; by rewrite Hc1.
Qed.

Lemma DatabaseLogger_log_after_close_raises_witness :
  exists w1,
    DatabaseLogger.close 0 fresh_ledger_world = (Ok tt, w1)
    /\ connections w1 !! 0 = Some (mkConnection "logs.db" true)
    /\ files w1 = files fresh_ledger_world
    /\ DatabaseLogger.log 0 (PyBool true) "chA" "vid1" "YoutubeDownloader" w1
       = (Raise ProgrammingError, w1).
Proof.
  apply (DatabaseLogger_log_after_close_raises 0
           (mkConnection "logs.db" false) (PyBool true) "chA" "vid1"
           "YoutubeDownloader" fresh_ledger_world).
  reflexivity.
Defined.

(** X2. A write that SQLite takes (the stage name gives a table name, the
    status fits 64 bits) keeps the primary key a key: when the video ids of
    the stage's table are pairwise different before [log], they are after,
    and the table has one row more exactly when the video id was not there
    yet. *)
Theorem DatabaseLogger_log_keeps_video_ids_unique
    c f status channel_id video_id ctx w :
  connections w !! c = Some (mkConnection f false) ->
  table_known w f ctx = true ->
  stage_name_ok ctx = true ->
  status_ok status = true ->
  NoDup (video_ids (rows_of w f ctx)) ->
  let w' := (DatabaseLogger.log c status channel_id video_id ctx w).2 in
  NoDup (video_ids (rows_of w' f ctx))
  /\ video_id ∈ video_ids (rows_of w' f ctx)
  /\ length (rows_of w' f ctx)
     = if bool_decide (video_id ∈ video_ids (rows_of w f ctx))
       then length (rows_of w f ctx)
       else S (length (rows_of w f ctx)).
Proof.
  intros Hc Hk Hname Hint Hnd. simpl.
  destruct (DatabaseLogger_log_spec c f status channel_id video_id ctx w Hc Hk
              Hname Hint)
    as (w' & -> & _ & _ & Hrows & _). simpl.
  rewrite (rows_of_after _ _ _ _ Hrows).
  pose proof (video_ids_replace_row
                (mkRow (status_int status) channel_id video_id)
                (rows_of w f ctx)) as Hids. simpl in Hids.
  split; [|split].
  - rewrite Hids. by apply NoDup_filter_snoc.
  - rewrite Hids. apply elem_of_app. right. by left.
  - rewrite <- (length_fmap Video_ID). fold (video_ids (Sqlite.replace_row
      (mkRow (status_int status) channel_id video_id) (rows_of w f ctx))).
    rewrite Hids, length_app, (length_filter_ne _ _ Hnd). simpl.
    unfold video_ids at 3 4. rewrite length_fmap.
    case_bool_decide as Hin; [|lia].
    unfold video_ids in Hin. apply list_elem_of_fmap in Hin as (r & _ & Hr).
    destruct (rows_of w f ctx); [by apply elem_of_nil in Hr|simpl; lia].
Qed.

Lemma DatabaseLogger_log_keeps_video_ids_unique_witness :
  NoDup (video_ids
           (rows_of (DatabaseLogger.log 0 (PyBool true) "chB" "vid1"
                       "YoutubeDownloader" ledger_world).2
              "logs.db" "YoutubeDownloader"))
  /\ length (rows_of (DatabaseLogger.log 0 (PyBool true) "chB" "vid1"
                        "YoutubeDownloader" ledger_world).2
               "logs.db" "YoutubeDownloader") = 1.
Proof.
  destruct (DatabaseLogger_log_keeps_video_ids_unique 0 "logs.db"
              (PyBool true) "chB" "vid1" "YoutubeDownloader" ledger_world)
    as (Hnd & _ & Hlen).
  - reflexivity.
  - reflexivity.
  - reflexivity.
  - reflexivity.
  - vm_compute. apply NoDup_singleton.
  - split; [exact Hnd|exact Hlen].
Defined.

(** X3. A call of [DatabaseLogger.log] for a stage whose name gives a
    table name, however it ends, changes nothing but the table of its stage
    in the database of its connection: every table of that database whose
    name is not the stage's table name in another case (SQLite tells tables
    apart without regard to case), the other databases, the connections,
    the console and the call history are as before, and [TABLE_EXISTS] is
    as before or has gained the stage's name, which it did not list. *)
Theorem DatabaseLogger_log_writes_only_its_table
    c f cl status channel_id video_id ctx w :
  connections w !! c = Some (mkConnection f cl) ->
  stage_name_ok ctx = true ->
  let w' := (DatabaseLogger.log c status channel_id video_id ctx w).2 in
  connections w' = connections w
  /\ console w' = console w /\ history w' = history w
  /\ (TABLE_EXISTS w' = TABLE_EXISTS w
      \/ ((ctx ∉ TABLE_EXISTS w)
          /\ TABLE_EXISTS w' = TABLE_EXISTS w ++ [ctx]))
  /\ (forall f', f' <> f -> files w' !! f' = files w !! f')
  /\ (forall name, same_table name (ctx +:+ "_logs") = false ->
        table_of w' f name = table_of w f name).
Proof.
  intros Hc _. simpl.
  destruct (DatabaseLogger_log_frame c f cl status channel_id video_id ctx w Hc)
    as (H1 & H2 & H3 & _ & H5 & H6 & H7).
  repeat split; try done.
  intros name Hname. unfold table_of. apply H7. unfold table_key.
  unfold same_table in Hname. by apply String.eqb_neq in Hname.
Qed.

Lemma DatabaseLogger_log_writes_only_its_table_witness :
  connections (DatabaseLogger.log 0 (PyBool true) "chB" "vid1"
                 "MusicSeparator" ledger_world).2
  = connections ledger_world
  /\ table_of (DatabaseLogger.log 0 (PyBool true) "chB" "vid1"
                 "MusicSeparator" ledger_world).2 "logs.db"
       "YoutubeDownloader_logs"
     = Some [mkRow 1 "chA" "vid1"].
Proof.
  destruct (DatabaseLogger_log_writes_only_its_table 0 "logs.db" false
              (PyBool true) "chB" "vid1" "MusicSeparator" ledger_world)
    as (Hconn & _ & _ & _ & _ & Htables); [reflexivity|reflexivity|].
  split; [exact Hconn|].
  rewrite (Htables "YoutubeDownloader_logs"); reflexivity.
Defined.

(** [TABLE_EXISTS] is shared by the connections of a world. *)
Lemma TABLE_EXISTS_shared c1 c2 f1 f2 ctx s1 ch1 v1 s2 ch2 v2 w :
  connections w !! c1 = Some (mkConnection f1 false) ->
  connections w !! c2 = Some (mkConnection f2 false) ->
  f1 <> f2 ->
  stage_name_ok ctx = true ->
  status_ok s1 = true ->
  table_known w f1 ctx = true ->
  database_of w f2 !! table_key ctx = None ->
  exists w1,
    DatabaseLogger.log c1 s1 ch1 v1 ctx w = (Ok tt, w1)
    /\ DatabaseLogger.log c2 s2 ch2 v2 ctx w1 = (Raise OperationalError, w1).
Proof.
  intros Hc1 Hc2 Hf Hname Hint Hk Hnone.
  destruct (DatabaseLogger_log_spec c1 f1 s1 ch1 v1 ctx w Hc1 Hk Hname Hint)
    as (w1 & Hlog & Hconn & Hin & _).
  exists w1. split; [done|].
  destruct (DatabaseLogger_log_frame c1 f1 false s1 ch1 v1 ctx w Hc1)
    as (_ & _ & _ & _ & _ & Hfiles & _).
  rewrite Hlog in Hfiles. simpl in Hfiles.
  assert (database_of w1 f2 !! table_key ctx = None) as Hnone1.
  { unfold database_of. rewrite Hfiles by done. exact Hnone. }
  unfold stage_name_ok in Hname.
  unfold DatabaseLogger.log, Sqlite.execute, Sqlite.insert_or_replace. monad.
  rewrite (bool_decide_eq_true_2 _ Hin). monad.
  rewrite Hconn, Hc2, Hname. unfold database_of, table_key in Hnone1.
  by rewrite Hnone1.
Qed.

Lemma DatabaseLogger_init_spec os_open p d w :
  os_open (fresh (dom (connections w))) p = Ok d ->
  DatabaseLogger.init os_open p w
  = (Ok (DatabaseLogger_obj (fresh (dom (connections w)))),
     set_connections
       (insert (fresh (dom (connections w))) (mkConnection d false)) w).
Proof.
  intros Hd. unfold DatabaseLogger.init, Sqlite.connect. monad.
  by rewrite Hd.
Qed.

(** X4. [TABLE_EXISTS] belongs to the class, not to the instance. Take two
    [DatabaseLogger]s constructed on two paths that the operating system
    resolves to two different databases, the second without a table for
    the stage. Once the first has logged for the stage (a write that SQLite
    takes), the first [log] for that stage through the second skips the
    creation of the table and raises (sqlite3.OperationalError), writing
    nothing. *)
Theorem TABLE_EXISTS_of_one_file_breaks_another
    os_open p1 p2 d1 d2 ctx s1 ch1 v1 s2 ch2 v2 w :
  (forall c, os_open c p1 = Ok d1) ->
  (forall c, os_open c p2 = Ok d2) ->
  d1 <> d2 ->
  stage_name_ok ctx = true ->
  status_ok s1 = true ->
  table_known w d1 ctx = true ->
  database_of w d2 !! table_key ctx = None ->
  exists c1 c2 w0 w1,
    (l1 ← DatabaseLogger.init os_open p1;
     l2 ← DatabaseLogger.init os_open p2;
     mret (l1, l2)) w
    = (Ok (DatabaseLogger_obj c1, DatabaseLogger_obj c2), w0)
    /\ DatabaseLogger.log c1 s1 ch1 v1 ctx w0 = (Ok tt, w1)
    /\ DatabaseLogger.log c2 s2 ch2 v2 ctx w1 = (Raise OperationalError, w1).
Proof.
  intros Hp1 Hp2 Hd Hname Hint Hk Hnone.
  set (c1 := fresh (dom (connections w))).
  set (wa := set_connections (insert c1 (mkConnection d1 false)) w).
  set (c2 := fresh (dom (connections wa))).
  set (w0 := set_connections (insert c2 (mkConnection d2 false)) wa).
  assert (c2 <> c1) as Hne.
  { intros Heq. pose proof (is_fresh (dom (connections wa))) as Hfresh.
    fold c2 in Hfresh. rewrite Heq in Hfresh. apply Hfresh.
    apply elem_of_dom. exists (mkConnection d1 false).
    subst wa. simpl. by rewrite lookup_insert_eq. }
  assert (connections w0 !! c1 = Some (mkConnection d1 false)) as Hc1.
  { subst w0 wa. simpl. rewrite lookup_insert_ne by done.
    by rewrite lookup_insert_eq. }
  assert (connections w0 !! c2 = Some (mkConnection d2 false)) as Hc2.
  { subst w0. simpl. by rewrite lookup_insert_eq. }
  destruct (TABLE_EXISTS_shared c1 c2 d1 d2 ctx s1 ch1 v1 s2 ch2 v2 w0
              Hc1 Hc2 Hd Hname Hint Hk Hnone) as (w1 & Hlog1 & Hlog2).
  exists c1, c2, w0, w1. split; [|by split].
  rewrite (bind_ok _ _ _ _ _ (DatabaseLogger_init_spec os_open p1 d1 w (Hp1 _))).
  fold c1 wa.
  rewrite (bind_ok _ _ _ _ _ (DatabaseLogger_init_spec os_open p2 d2 wa (Hp2 _))).
  reflexivity.
Qed.

Lemma TABLE_EXISTS_of_one_file_breaks_another_witness :
  exists c1 c2 w0 w1,
    (l1 ← DatabaseLogger.init os_open_in_srv "a.db";
     l2 ← DatabaseLogger.init os_open_in_srv "b.db";
     mret (l1, l2)) empty_world
    = (Ok (DatabaseLogger_obj c1, DatabaseLogger_obj c2), w0)
    /\ DatabaseLogger.log c1 (PyBool false) "chA" "vid1" "YoutubeDownloader"
         w0 = (Ok tt, w1)
    /\ DatabaseLogger.log c2 (PyBool false) "chA" "vid1" "YoutubeDownloader"
         w1 = (Raise OperationalError, w1).
Proof.
  apply (TABLE_EXISTS_of_one_file_breaks_another os_open_in_srv "a.db" "b.db"
           "/srv/a.db" "/srv/b.db" "YoutubeDownloader" (PyBool false) "chA"
           "vid1" (PyBool false) "chA" "vid1" empty_world).
  - reflexivity.
  - reflexivity.
  - discriminate.
  - reflexivity.
  - reflexivity.
  - reflexivity.
  - reflexivity.
Defined.

End DatabaseLoggerMore.

(** ** The multi-sink ledger: construction and release *)

Section LoggersMore.

Lemma instantiated_mono os_open w w1 w' cfg l :
  (forall k, is_Some (connections w1 !! k) ->
             connections w' !! k = connections w1 !! k) ->
  (forall k, is_Some (connections w !! k) ->
             connections w1 !! k = connections w !! k) ->
  instantiated os_open w1 w' cfg l -> instantiated os_open w w' cfg l.
Proof.
  intros _ Hw. destruct cfg as [f|], l as [c|]; simpl; try done.
  intros [Hnone Hsome]. split; [|done].
  destruct (connections w !! c) as [k|] eqn:Hk; [|done].
  rewrite <- (Hw c) in Hk by (by rewrite Hk). congruence.
Qed.

Lemma instantiate_spec os_open cfg w :
  (forall c f, cfg = DatabaseLogger_cfg f -> is_ok (os_open c f) = true) ->
  exists l w',
    instantiate os_open cfg w = (Ok l, w')
    /\ instantiated os_open w w' cfg l
    /\ (forall k, is_Some (connections w !! k) ->
                  connections w' !! k = connections w !! k)
    /\ console_handlers w'
       = console_handlers w + console_sinks [cfg]
    /\ files w' = files w /\ TABLE_EXISTS w' = TABLE_EXISTS w
    /\ console w' = console w /\ history w' = history w.
Proof.
  intros Hopen. destruct cfg as [f|]; simpl.
  - unfold DatabaseLogger.init, Sqlite.connect. monad.
    specialize (Hopen (fresh (dom (connections w))) f eq_refl).
    destruct (os_open _ f) as [database|e] eqn:Hdb; [|done].
    eexists _, _. split; [reflexivity|]. simpl.
    pose proof (is_fresh (dom (connections w))) as Hfresh.
    apply not_elem_of_dom in Hfresh.
    split; [split; [done|]; exists database; split; [done|];
            by rewrite lookup_insert_eq|].
    repeat split; try done;
      try (intros k [x Hk]; rewrite lookup_insert_ne; [done|congruence]);
      try (unfold console_sinks; simpl; lia).
  - eexists _, _. split; [reflexivity|]. simpl.
    repeat split; try done; try (unfold console_sinks; simpl; lia).
Qed.

Lemma console_sinks_cons c cfg :
  console_sinks (c :: cfg) = console_sinks [c] + console_sinks cfg.
Proof.
  unfold console_sinks. rewrite !filter_cons.
  destruct (decide (c = ConsoleLogger_cfg)); simpl; lia.
Qed.

(** X5. When the file of every database entry can be opened, [Loggers(cfg)]
    instantiates one sink per configuration entry, in the order of the
    configuration; every database sink gets a connection of its own that
    is new and open on the database its path resolves to, the connections
    that existed are left alone, and every console sink attaches one more
    handler to the shared console logger. Nothing is written. *)
Theorem Loggers_init_instantiates_in_order os_open cfg w :
  (forall c f, DatabaseLogger_cfg f ∈ cfg -> is_ok (os_open c f) = true) ->
  exists loggers w',
    Loggers.init os_open cfg w = (Ok loggers, w')
    /\ Forall2 (instantiated os_open w w') cfg loggers
    /\ NoDup (database_connections loggers)
    /\ (forall k, is_Some (connections w !! k) ->
                  connections w' !! k = connections w !! k)
    /\ console_handlers w' = console_handlers w + console_sinks cfg
    /\ files w' = files w /\ TABLE_EXISTS w' = TABLE_EXISTS w
    /\ console w' = console w /\ history w' = history w.
Proof.
  revert w. induction cfg as [|c cfg IH]; intros w Hopen.
  - exists [], w.
    repeat split; try done; try constructor;
      try (unfold console_sinks; simpl; lia).
  - destruct (instantiate_spec os_open c w)
      as (l & w1 & Hl & Hinst & Hold & Hh & Hf & Ht & Hc & Hhist).
    { intros k f ->. apply Hopen. by left. }
    destruct (IH w1)
      as (ls & w' & Hls & Hall & Hnd & Hold' & Hh' & Hf' & Ht' & Hc' & Hhist').
    { intros k f Hin. apply Hopen. by right. }
    exists (l :: ls), w'. simpl.
    rewrite (bind_ok _ _ _ _ _ Hl), (bind_ok _ _ _ _ _ Hls).
    split; [done|]. split; [|split; [|split; [|split]]].
    + constructor.
      * destruct c as [f|], l as [k|]; simpl in *; try done.
        destruct Hinst as (Hnone & database & Hdb & Hsome).
        split; [done|]. exists database. split; [done|].
        rewrite Hold'; [done|]. by rewrite Hsome.
      * eapply Forall2_impl; [exact Hall|]. intros c' l'.
        by apply instantiated_mono.
    + destruct l as [k|]; simpl; [|done].
      apply NoDup_cons. split; [|done].
      intros Hk. unfold database_connections in Hk.
      apply list_elem_of_omap in Hk as (l' & Hl' & Heq).
      destruct l' as [k'|]; [|done]. injection Heq as ->.
      apply list_elem_of_lookup in Hl' as [i Hi].
      destruct (Forall2_lookup_r _ _ _ _ _ Hall Hi) as (c' & _ & Hc'inst).
      destruct c as [f|]; [|done].
      destruct Hinst as (_ & database & _ & Hsome).
      destruct c' as [f'|]; [|done]. destruct Hc'inst as [Hnone _].
      congruence.
    + intros k Hk. rewrite Hold'; [by apply Hold|]. by rewrite Hold.
    + rewrite Hh', Hh, (console_sinks_cons c cfg). lia.
    + repeat split; congruence.
Qed.

Lemma Loggers_init_instantiates_in_order_witness :
  exists w',
    Loggers.init os_open_in_srv
      [DatabaseLogger_cfg "a.db"; ConsoleLogger_cfg;
       DatabaseLogger_cfg "./a.db"] empty_world
    = (Ok [DatabaseLogger_obj 0; ConsoleLogger_obj; DatabaseLogger_obj 1], w')
    /\ connections w' !! 0 = Some (mkConnection "/srv/a.db" false)
    /\ connections w' !! 1 = Some (mkConnection "/srv/a.db" false)
    /\ console_handlers w' = 1.
Proof.
  destruct (Loggers_init_instantiates_in_order os_open_in_srv
              [DatabaseLogger_cfg "a.db"; ConsoleLogger_cfg;
               DatabaseLogger_cfg "./a.db"] empty_world)
    as (loggers & w' & Hinit & _ & _ & _ & Hh & _).
  - intros c f _. reflexivity.
  - exists w'. vm_compute in Hinit. injection Hinit as <- <-.
    split; [reflexivity|]. split; [reflexivity|]. split; reflexivity.
Defined.

Lemma Loggers_init_console_sinks os_open k w :
  Loggers.init os_open (replicate k ConsoleLogger_cfg) w
  = (Ok (replicate k ConsoleLogger_obj), set_console_handlers (Nat.add k) w).
Proof.
  revert w. induction k as [|k IH]; intros w; simpl.
  - by destruct w.
  - unfold ConsoleLogger.init at 1. monad. rewrite IH. monad.
    destruct w; simpl. unfold set_console_handlers. simpl.
    do 2 f_equal. lia.
Qed.

Lemma Loggers_log_console_sinks k s ch vid w :
  Loggers.log (replicate k ConsoleLogger_obj) s ch vid [] w
  = (Ok tt,
     set_console (fun out =>
       out ++ replicate (k * console_handlers w)
                (ConsoleLogger.message s ch vid)) w).
Proof.
  unfold Loggers.log. revert w. induction k as [|k IH]; intros w; simpl.
  - destruct w; simpl. unfold set_console. simpl. by rewrite app_nil_r.
  - rewrite (bind_ok _ _ _ _ _ (ConsoleLogger_log_spec _ _ _ _)).
    rewrite IH. destruct w; simpl. unfold set_console. simpl.
    by rewrite <- app_assoc, <- replicate_add.
Qed.

(** X6. The console sinks share one logger, and each of them adds a
    handler to it: a [Loggers] of [k] console sinks, in a process with [h]
    handlers before, writes every event [k * (h + k)] times through those
    handlers ([k * k] times in a fresh process). *)
Theorem console_sinks_multiply_the_lines
    os_open k status channel_id video_id w :
  (loggers ← Loggers.init os_open (replicate k ConsoleLogger_cfg);
   Loggers.log loggers status channel_id video_id []) w
  = (Ok tt,
     set_console (fun out =>
       out ++ replicate (k * (console_handlers w + k))
                (ConsoleLogger.message status channel_id video_id))
       (set_console_handlers (fun h => h + k) w)).
Proof.
  rewrite (bind_ok _ _ _ _ _ (Loggers_init_console_sinks os_open k w)).
  rewrite Loggers_log_console_sinks. destruct w; simpl.
  unfold set_console, set_console_handlers. simpl.
  do 2 f_equal; [lia|]. do 2 f_equal. lia.
Qed.

Lemma Logger_close_connections l w :
  connections (Logger_close l w).2
  = match l with
    | DatabaseLogger_obj c =>
        alter (fun k => mkConnection (db_file k) true) c (connections w)
    | ConsoleLogger_obj => connections w
    end.
Proof. by destruct l. Qed.

(** X7. [Loggers.close] never raises and closes the connection of every
    database sink, keeping its file; a connection that belongs to none of
    the sinks is left as it was, and the ledger files are untouched. *)
Theorem Loggers_close_closes_every_database_sink loggers w :
  exists w',
    Loggers.close loggers w = (Ok tt, w')
    /\ (forall c k,
          c ∈ database_connections loggers ->
          connections w !! c = Some k ->
          connections w' !! c = Some (mkConnection (db_file k) true))
    /\ (forall c,
          c ∉ database_connections loggers ->
          connections w' !! c = connections w !! c)
    /\ files w' = files w.
Proof.
  unfold Loggers.close. revert w.
  induction loggers as [|l loggers IH]; intros w; simpl.
  - exists w. repeat split; try done. intros c k Hc. by apply elem_of_nil in Hc.
  - destruct (Logger_close_spec l w) as (w1 & Hl & _ & Hf & _).
    pose proof (Logger_close_connections l w) as Hconn.
    rewrite Hl in Hconn. simpl in Hconn.
    rewrite (bind_ok _ _ _ _ _ Hl).
    destruct (IH w1) as (w' & -> & Hin & Hout & Hf').
    exists w'. split; [done|]. split; [|split; [|congruence]].
    + intros c k Hc Hk.
      destruct (decide (c ∈ database_connections loggers)) as [Hc'|Hc'].
      * destruct l as [c0|]; simpl in Hconn.
        -- destruct (decide (c0 = c)) as [->|Hne].
           ++ rewrite (Hin c (mkConnection (db_file k) true) Hc');
                [done|]. by rewrite Hconn, lookup_alter_eq, Hk.
           ++ apply (Hin c k Hc').
              by rewrite Hconn, lookup_alter_ne.
        -- apply (Hin c k Hc'). by rewrite Hconn.
      * destruct l as [c0|]; simpl in Hc; [|done].
        apply elem_of_cons in Hc as [->|Hc]; [|done].
        rewrite (Hout c0 Hc'). by rewrite Hconn, lookup_alter_eq, Hk.
    + intros c Hc. destruct l as [c0|]; simpl in Hc, Hconn.
      * apply not_elem_of_cons in Hc as [Hne Hc].
        rewrite (Hout c Hc), Hconn. by rewrite lookup_alter_ne.
      * by rewrite (Hout c Hc), Hconn.
Qed.

Lemma Loggers_close_closes_every_database_sink_witness :
  exists w',
    Loggers.close [DatabaseLogger_obj 0; ConsoleLogger_obj]
      two_ledgers_world = (Ok tt, w')
    /\ connections w' !! 0 = Some (mkConnection "a.db" true)
    /\ connections w' !! 1 = Some (mkConnection "b.db" false).
Proof.
  destruct (Loggers_close_closes_every_database_sink
              [DatabaseLogger_obj 0; ConsoleLogger_obj] two_ledgers_world)
    as (w' & Hclose & Hin & Hout & _).
  exists w'. split; [exact Hclose|]. split.
  - apply (Hin 0 (mkConnection "a.db" false)); [by left|reflexivity].
  - rewrite (Hout 1); [reflexivity|].
    intros H. by apply list_elem_of_singleton in H.
Defined.

End LoggersMore.

(** ** The acquisition stage: enumeration, download, dispatch *)

Section DownloaderMore.
Import YoutubeDownloader.

Lemma dict_get_set_eq {V} k (v : V) d : dict_get k (dict_set k v d) = Some v.
Proof.
  induction d as [|[k' v'] d IH]; simpl.
  - by rewrite String.eqb_refl.
  - destruct (String.eqb k' k) eqn:Hk; simpl.
    + by rewrite String.eqb_refl.
    + by rewrite Hk.
Qed.

Lemma dict_get_set_ne {V} k k0 (v : V) d :
  k0 <> k -> dict_get k0 (dict_set k v d) = dict_get k0 d.
Proof.
  intros Hne. induction d as [|[k' v'] d IH]; simpl.
  - by rewrite (proj2 (String.eqb_neq k k0)).
  - destruct (String.eqb k' k) eqn:Hk; simpl.
    + apply String.eqb_eq in Hk as ->.
      by rewrite (proj2 (String.eqb_neq k k0)).
    + by rewrite IH.
Qed.

Lemma dict_keys_set {V} k (v : V) d :
  dict_keys (dict_set k v d)
  = if bool_decide (k ∈ dict_keys d) then dict_keys d else dict_keys d ++ [k].
Proof.
  unfold dict_keys. induction d as [|[k' v'] d IH]; [done|].
  simpl dict_set. destruct (String.eqb k' k) eqn:Hk.
  - apply String.eqb_eq in Hk as ->. rewrite !fmap_cons. simpl.
    by rewrite bool_decide_eq_true_2 by (by left).
  - apply String.eqb_neq in Hk. rewrite !fmap_cons, IH. simpl.
    destruct (decide (k ∈ d.*1)) as [Hin|Hin].
    + rewrite !bool_decide_eq_true_2; [done|by right|done].
    + rewrite !bool_decide_eq_false_2; [done| |done].
      intros [Heq|Hin']%elem_of_cons; [by apply Hk|done].
Qed.

Lemma log_each_video c f s ch ctx (vids : list string) w :
  connections w !! c = Some (mkConnection f false) ->
  table_known w f ctx = true ->
  stage_name_ok ctx = true ->
  status_ok s = true ->
  exists w',
    for_each vids (fun v => DatabaseLogger.log c s ch v ctx) w = (Ok tt, w')
    /\ connections w' = connections w
    /\ table_known w' f ctx = true
    /\ forall v,
         rows_for v (rows_of w' f ctx)
         = if bool_decide (v ∈ vids) then [mkRow (status_int s) ch v]
           else rows_for v (rows_of w f ctx).
Proof.
  intros Hc Hk Hname Hint. revert w Hc Hk.
  induction vids as [|v0 vids IH]; intros w Hc Hk.
  - exists w. by repeat split.
  - destruct (DatabaseLogger_log_spec c f s ch v0 ctx w Hc Hk Hname Hint)
      as (w1 & Hlog & Hc1 & _ & Hrows & _).
    simpl. rewrite (bind_ok _ _ _ _ _ Hlog).
    destruct (IH w1) as (w' & -> & Hc' & Hk' & Hfor).
    { by rewrite Hc1. }
    { by eapply table_known_after. }
    exists w'. repeat split; [congruence|done|].
    intros v. rewrite Hfor, (rows_of_after _ _ _ _ Hrows).
    destruct (decide (v ∈ vids)) as [Hin|Hin].
    + by rewrite !bool_decide_eq_true_2; [|by right|].
    + rewrite (bool_decide_eq_false_2 _ Hin).
      destruct (decide (v = v0)) as [->|Hne].
      * rewrite bool_decide_eq_true_2 by (by left).
        apply (rows_for_replace_row (mkRow (status_int s) ch v0)).
      * rewrite bool_decide_eq_false_2.
        -- apply rows_for_replace_row_other. simpl. congruence.
        -- intros [Heq|Hin']%elem_of_cons; done.
Qed.

(** X8. With a [DatabaseLogger] as its logger, [get_video_ids] succeeds
    whenever the channel can be listed, and it marks every listed video
    incomplete: afterwards each listed video id has exactly one row in the
    stage's table, with status 0 and this channel, whatever the ledger said
    about it before (a complete video is reset, a video of another channel
    is moved to this one); the rows of the videos not listed are as they
    were. *)
Theorem get_video_ids_marks_listed_videos_incomplete
    ytdl self channel_id entries c f w :
  logger self = a_Logger (DatabaseLogger_obj c) ->
  extract_info ytdl ("https://youtube.com/channel/" +:+ channel_id)
    = Ok entries ->
  connections w !! c = Some (mkConnection f false) ->
  table_known w f __name__ = true ->
  exists self' w',
    get_video_ids ytdl self channel_id w = (Ok self', w')
    /\ dict_get channel_id (channel_to_video_map self')
       = Some (truthy_ids entries)
    /\ forall v,
         rows_for v (rows_of w' f __name__)
         = if bool_decide (v ∈ truthy_ids entries)
           then [mkRow 0 channel_id v]
           else rows_for v (rows_of w f __name__).
Proof.
  intros Hlogger Hentries Hc Hk.
  destruct (log_each_video c f (PyBool false) channel_id __name__
              (truthy_ids entries) w Hc Hk eq_refl eq_refl)
    as (w' & Hlog & _ & _ & Hrows).
  destruct self as [ids dir n m lg kw]. simpl in Hlogger. subst lg.
  eexists _, w'. unfold get_video_ids. simpl.
  rewrite Hentries. monad. unfold logger_log, Logger_log. simpl.
  change (for_each (truthy_ids entries)
            (fun video_id =>
               DatabaseLogger.log c (PyBool false) channel_id video_id
                 __name__) w) with
    (for_each (truthy_ids entries)
       (fun v => DatabaseLogger.log c (PyBool false) channel_id v __name__) w).
  rewrite Hlog. split; [reflexivity|]. simpl.
  split; [apply dict_get_set_eq|exact Hrows].
Qed.

Lemma get_video_ids_marks_listed_videos_incomplete_witness :
  exists self' w',
    get_video_ids two_videos ledger_stage "chA" ledger_world = (Ok self', w')
    /\ dict_get "chA" (channel_to_video_map self') = Some ["vid1"; "vid2"]
    /\ rows_for "vid1" (rows_of w' "logs.db" __name__)
       = [mkRow 0 "chA" "vid1"].
Proof.
  destruct (get_video_ids_marks_listed_videos_incomplete two_videos
              ledger_stage "chA" [Some "vid1"; Some "vid2"] 0 "logs.db"
              ledger_world)
    as (self' & w' & Hget & Hmap & Hrows); try reflexivity.
  exists self', w'. split; [exact Hget|]. split; [exact Hmap|].
  exact (Hrows "vid1").
Defined.

(** X9. [get_video_ids] replaces the entry of its channel in
    [channel_to_video_map] and adds none beside it: afterwards the channel
    maps to the ids just listed, every other channel maps to what it did,
    and the keys are the keys as they were, with the channel appended when
    it was new. Enumerating a channel again therefore never makes
    [start_download] submit its videos twice. *)
Theorem get_video_ids_replaces_the_channel_entry
    ytdl self channel_id w self' w' :
  get_video_ids ytdl self channel_id w = (Ok self', w') ->
  exists entries,
    extract_info ytdl ("https://youtube.com/channel/" +:+ channel_id)
      = Ok entries
    /\ dict_get channel_id (channel_to_video_map self')
       = Some (truthy_ids entries)
    /\ (forall c, c <> channel_id ->
          dict_get c (channel_to_video_map self')
          = dict_get c (channel_to_video_map self))
    /\ dict_keys (channel_to_video_map self')
       = if bool_decide (channel_id ∈ dict_keys (channel_to_video_map self))
         then dict_keys (channel_to_video_map self)
         else dict_keys (channel_to_video_map self) ++ [channel_id].
Proof.
  intros Hget.
  destruct (get_video_ids_ok _ _ _ _ _ _ Hget) as (entries & He & Hmap & _).
  exists entries. split; [done|]. rewrite Hmap.
  split; [apply dict_get_set_eq|]. split.
  - intros c Hne. by apply dict_get_set_ne.
  - apply dict_keys_set.
Qed.

Lemma get_video_ids_replaces_the_channel_entry_witness :
  dict_get "chA" (channel_to_video_map ledger_stage_enumerated)
  = Some ["vid1"; "vid2"]
  /\ dict_keys (channel_to_video_map ledger_stage_enumerated) = ["chA"].
Proof.
  destruct (get_video_ids_replaces_the_channel_entry two_videos ledger_stage
              "chA" ledger_world ledger_stage_enumerated
              (get_video_ids two_videos ledger_stage "chA" ledger_world).2)
    as (entries & Hentries & Hget & _ & Hkeys).
  - vm_compute. reflexivity.
  - injection Hentries as <-. split; [exact Hget|exact Hkeys].
Defined.

(** X10. Every stage passes four arguments to [log], which only
    [DatabaseLogger.log] takes: with any other logger (a [ConsoleLogger], or
    a [Loggers] of whatever sinks) [get_video_ids] raises TypeError at the
    first video the channel lists, before anything is written, and
    [channel_to_video_map] is not updated. *)
Theorem get_video_ids_needs_a_bare_DatabaseLogger
    ytdl self channel_id entries w :
  extract_info ytdl ("https://youtube.com/channel/" +:+ channel_id)
    = Ok entries ->
  truthy_ids entries <> [] ->
  (forall c, logger self <> a_Logger (DatabaseLogger_obj c)) ->
  get_video_ids ytdl self channel_id w = (Raise TypeError, w).
Proof.
  intros Hentries Hne Hlogger. unfold get_video_ids. rewrite Hentries. monad.
  destruct (truthy_ids entries) as [|v vs]; [done|]. simpl.
  destruct (logger self) as [[c|]|ls] eqn:Hl.
  - by destruct (Hlogger c).
  - reflexivity.
  - reflexivity.
Qed.

Lemma get_video_ids_needs_a_bare_DatabaseLogger_witness :
  get_video_ids two_videos five_items "chA" fresh_ledger_world
  = (Raise TypeError, fresh_ledger_world).
Proof.
  apply (get_video_ids_needs_a_bare_DatabaseLogger two_videos five_items
           "chA" [Some "vid1"; Some "vid2"] fresh_ledger_world).
  - reflexivity.
  - discriminate.
  - intros c. discriminate.
Defined.

End DownloaderMore.

Section DownloadMore.
Import YoutubeDownloader.

Lemma for_each_ext {A} (l : list A) (f g : A -> M unit) w :
  (forall x w, f x w = g x w) -> for_each l f w = for_each l g w.
Proof.
  intros Hfg. revert w. induction l as [|x l IH]; intros w; [done|].
  simpl. unfold mbind, M_bind. rewrite Hfg.
  destruct (g x w) as [[[]|e] w']; [apply IH|done].
Qed.

Lemma for_each_singleton {A} (x : A) (body : A -> M unit) w :
  for_each [x] body w = body x w.
Proof.
  simpl. unfold mbind, M_bind, mret, M_ret.
  by destruct (body x w) as [[[]|e] w'].
Qed.

(** The loop over the progress reports, with [logger_hook] installed and
    with the hooks replaced. *)
Lemma progress_loop_installed (self : t) channel_id video_id progress w :
  "progress_hooks" ∉ downloader_kwargs self ->
  for_each progress (fun status =>
    for_each
      (if bool_decide ("progress_hooks" ∈ downloader_kwargs self) then []
       else [fun status : string =>
               if String.eqb status "finished"
               then logger_log (logger self) (PyBool true) channel_id
                      video_id [__name__]
               else mret tt])
      (fun hook => hook status)) w
  = for_each progress (fun status =>
      if String.eqb status "finished"
      then logger_log (logger self) (PyBool true) channel_id video_id
             [__name__]
      else mret tt) w.
Proof.
  intros Hkw. rewrite (bool_decide_eq_false_2 _ Hkw).
  apply for_each_ext. intros st w0. apply for_each_singleton.
Qed.

Lemma progress_loop_replaced (self : t) channel_id video_id progress w :
  "progress_hooks" ∈ downloader_kwargs self ->
  for_each progress (fun status =>
    for_each
      (if bool_decide ("progress_hooks" ∈ downloader_kwargs self) then []
       else [fun status : string =>
               if String.eqb status "finished"
               then logger_log (logger self) (PyBool true) channel_id
                      video_id [__name__]
               else mret tt])
      (fun hook => hook status)) w
  = (Ok tt, w).
Proof.
  intros Hkw. rewrite (bool_decide_eq_true_2 _ Hkw).
  induction progress as [|st progress IH]; [done|]. simpl. monad. exact IH.
Qed.

(** the progress hook of [download_audio] on a database logger *)
Lemma logger_hooks_spec c f channel_id video_id (progress : list string) w :
  connections w !! c = Some (mkConnection f false) ->
  table_known w f __name__ = true ->
  exists w',
    for_each progress (fun status =>
      if String.eqb status "finished"
      then logger_log (a_Logger (DatabaseLogger_obj c)) (PyBool true)
             channel_id video_id [__name__]
      else mret tt) w = (Ok tt, w')
    /\ connections w' = connections w
    /\ table_known w' f __name__ = true
    /\ rows_besides video_id (rows_of w' f __name__)
       = rows_besides video_id (rows_of w f __name__)
    /\ ("finished" ∉ progress -> w' = w)
    /\ ("finished" ∈ progress ->
        rows_for video_id (rows_of w' f __name__)
        = [mkRow 1 channel_id video_id]).
Proof.
  revert w. induction progress as [|st progress IH]; intros w Hc Hk.
  - exists w. repeat split; try done. intros H. by apply elem_of_nil in H.
  - cbn [for_each]. destruct (String.eqb st "finished") eqn:Hst.
    + apply String.eqb_eq in Hst as ->.
      destruct (DatabaseLogger_log_spec c f (PyBool true) channel_id video_id
                  __name__ w Hc Hk eq_refl eq_refl)
        as (w1 & Hlog & Hc1 & _ & Hrows & _).
      rewrite (bind_ok (logger_log (a_Logger (DatabaseLogger_obj c))
                          (PyBool true) channel_id video_id [__name__])
                 _ _ _ _ Hlog).
      destruct (IH w1) as (w' & -> & Hc' & Hk' & Hb & Hsame & Hfin).
      { by rewrite Hc1. }
      { by eapply table_known_after. }
      exists w'. split; [done|]. split; [congruence|]. split; [done|].
      split; [|split].
      * rewrite Hb, (rows_of_after _ _ _ _ Hrows).
        apply (rows_besides_replace_row (mkRow 1 channel_id video_id)).
      * intros Hnot. exfalso. apply Hnot. by left.
      * intros _. destruct (decide ("finished" ∈ progress)) as [Hin|Hin].
        -- by apply Hfin.
        -- rewrite (Hsame Hin), (rows_of_after _ _ _ _ Hrows).
           apply (rows_for_replace_row (mkRow 1 channel_id video_id)).
    + apply String.eqb_neq in Hst.
      change ((mret tt ≫= fun _ : () => for_each progress
                 (fun status =>
                    if String.eqb status "finished"
                    then logger_log (a_Logger (DatabaseLogger_obj c))
                           (PyBool true) channel_id video_id [__name__]
                    else mret tt)) w)
        with (for_each progress
                (fun status =>
                   if String.eqb status "finished"
                   then logger_log (a_Logger (DatabaseLogger_obj c))
                          (PyBool true) channel_id video_id [__name__]
                   else mret tt) w).
      destruct (IH w Hc Hk) as (w' & -> & Hc' & Hk' & Hb & Hsame & Hfin).
      exists w'. repeat split; try done.
      * intros Hnot. apply Hsame. intros Hin. apply Hnot. by right.
      * intros [Heq|Hin]%elem_of_cons; [done|by apply Hfin].
Qed.

Lemma logger_hooks_idle (self : t) channel_id video_id
    (progress : list string) w :
  "finished" ∉ progress ->
  for_each progress (fun status =>
    if String.eqb status "finished"
    then logger_log (logger self) (PyBool true) channel_id video_id [__name__]
    else mret tt) w = (Ok tt, w).
Proof.
  induction progress as [|st progress IH]; intros Hnot; [done|].
  simpl. destruct (String.eqb st "finished") eqn:Hst.
  - apply String.eqb_eq in Hst as ->. exfalso. apply Hnot. by left.
  - monad. apply IH. intros Hin. apply Hnot. by right.
Qed.

(** X11. [download_audio] writes to the ledger only from its progress hook
    and only on a report with status "finished": when the engine makes no
    such report, the call leaves the ledger, the console and everything else
    as they were, whatever the logger is, and ends as the engine ended (or
    with the error of [makedirs]). *)
Theorem download_audio_logs_nothing_unless_finished
    ytdl self channel_id video_id progress outcome w :
  download ytdl ("https://www.youtube.com/watch?v=" +:+ video_id)
    = (progress, outcome) ->
  "finished" ∉ progress ->
  download_audio ytdl self channel_id video_id w
  = (result_bind
       (makedirs ytdl
          (Pathlib.mkPath (Pathlib.root (save_dir self))
             (Pathlib.parts (save_dir self) ++ [channel_id; video_id])))
       (fun _ => outcome), w).
Proof.
  intros Hd Hnot. unfold download_audio. rewrite Hd.
  cbv beta iota zeta.
  destruct (makedirs ytdl _) as [[]|e]; [|done].
  rewrite (bind_ok (lift (Ok tt)) _ w tt w eq_refl).
  destruct (decide ("progress_hooks" ∈ downloader_kwargs self)) as [Hkw|Hkw].
  - rewrite (bind_ok _ _ _ _ _
               (progress_loop_replaced self channel_id video_id progress w
                  Hkw)).
    by destruct outcome.
  - assert (for_each progress (fun status =>
              for_each
                (if bool_decide ("progress_hooks" ∈ downloader_kwargs self)
                 then []
                 else [fun status : string =>
                         if String.eqb status "finished"
                         then logger_log (logger self) (PyBool true)
                                channel_id video_id [__name__]
                         else mret tt])
                (fun hook => hook status)) w = (Ok tt, w)) as Hloop.
    { rewrite (progress_loop_installed self channel_id video_id progress w
                 Hkw).
      by apply logger_hooks_idle. }
    rewrite (bind_ok _ _ _ _ _ Hloop). by destruct outcome.
Qed.

Lemma download_audio_logs_nothing_unless_finished_witness :
  download_audio
    (mkYoutubeDL (fun _ => Ok []) (fun _ => (["downloading"; "error"],
                                            Raise (ExternalError "network")))
       (fun _ => Ok tt))
    ledger_stage "chA" "vid1" ledger_world
  = (Raise (ExternalError "network"), ledger_world).
Proof.
  apply (download_audio_logs_nothing_unless_finished
           (mkYoutubeDL (fun _ => Ok [])
              (fun _ => (["downloading"; "error"],
                         Raise (ExternalError "network")))
              (fun _ => Ok tt))
           ledger_stage "chA" "vid1" ["downloading"; "error"]
           (Raise (ExternalError "network")) ledger_world).
  - reflexivity.
  - intros H. repeat (apply elem_of_cons in H as [H|H]; [discriminate|]).
    by apply elem_of_nil in H.
Defined.

(** X12. The completion mark follows the "finished" report, not the end of
    the call: when [downloader_kwargs] leaves the progress hooks alone, the
    engine reports "finished" and the logger is an open [DatabaseLogger],
    [download_audio] leaves exactly one row for the video, with status 1
    and its channel, and ends as the engine ended, so the video is marked
    complete also when the download call then raises (as when the audio
    extraction that follows the transfer fails). The rows of the other
    videos are as they were. *)
Theorem download_audio_marks_complete_on_finished
    ytdl self channel_id video_id progress outcome c f w :
  logger self = a_Logger (DatabaseLogger_obj c) ->
  "progress_hooks" ∉ downloader_kwargs self ->
  makedirs ytdl
    (Pathlib.mkPath (Pathlib.root (save_dir self))
       (Pathlib.parts (save_dir self) ++ [channel_id; video_id])) = Ok tt ->
  download ytdl ("https://www.youtube.com/watch?v=" +:+ video_id)
    = (progress, outcome) ->
  "finished" ∈ progress ->
  connections w !! c = Some (mkConnection f false) ->
  table_known w f __name__ = true ->
  exists w',
    download_audio ytdl self channel_id video_id w = (outcome, w')
    /\ rows_for video_id (rows_of w' f __name__)
       = [mkRow 1 channel_id video_id]
    /\ rows_besides video_id (rows_of w' f __name__)
       = rows_besides video_id (rows_of w f __name__).
Proof.
  intros Hlogger Hkw Hmk Hd Hfin Hc Hk.
  destruct (logger_hooks_spec c f channel_id video_id progress w Hc Hk)
    as (w' & Hloop & _ & _ & Hb & _ & Hrow).
  pose proof (progress_loop_installed self channel_id video_id progress w Hkw)
    as Hinst.
  rewrite Hlogger, Hloop in Hinst.
  exists w'. unfold download_audio. rewrite Hd, Hmk, Hlogger.
  cbv beta iota zeta.
  rewrite (bind_ok (lift (Ok tt)) _ w tt w eq_refl).
  rewrite (bind_ok _ _ _ _ _ Hinst).
  split; [by destruct outcome|]. split; [by apply Hrow|exact Hb].
Qed.

Lemma download_audio_marks_complete_on_finished_witness :
  exists w',
    download_audio
      (mkYoutubeDL (fun _ => Ok [])
         (fun _ => (["downloading"; "finished"],
                    Raise (ExternalError "postprocessing")))
         (fun _ => Ok tt))
      ledger_stage "chA" "vid2" ledger_world
    = (Raise (ExternalError "postprocessing"), w')
    /\ rows_for "vid2" (rows_of w' "logs.db" __name__)
       = [mkRow 1 "chA" "vid2"]
    /\ rows_besides "vid2" (rows_of w' "logs.db" __name__)
       = rows_besides "vid2" (rows_of ledger_world "logs.db" __name__).
Proof.
  apply (download_audio_marks_complete_on_finished
           (mkYoutubeDL (fun _ => Ok [])
              (fun _ => (["downloading"; "finished"],
                         Raise (ExternalError "postprocessing")))
              (fun _ => Ok tt))
           ledger_stage "chA" "vid2" ["downloading"; "finished"]
           (Raise (ExternalError "postprocessing")) 0 "logs.db" ledger_world).
  - reflexivity.
  - apply not_elem_of_nil.
  - reflexivity.
  - reflexivity.
  - right. left.
  - reflexivity.
  - reflexivity.
Defined.

Lemma init_fields read_lines cfg lg self :
  init read_lines cfg lg = Ok self ->
  channel_to_video_map self = []
  /\ num_workers self = default 0%Z (cfg_num_workers cfg)
  /\ logger self = lg.
Proof.
  unfold init. destruct (_ && _); [done|].
  destruct (cfg_channels_file cfg) as [f|]; simpl.
  - destruct (String.eqb f ""); simpl; [by intros [= <-]|].
    destruct (read_lines f); simpl; [|done].
    destruct (cfg_channel_ids cfg); simpl; [done|by intros [= <-]].
  - by intros [= <-].
Qed.

(** X13. A downloader straight from its constructor downloads nothing:
    [__init__] leaves [channel_to_video_map] empty and only [get_video_ids],
    which nothing in the class calls, fills it; so [__call__] hands no task
    to the pool and awaits none, whatever channels are configured. With at
    least one worker it returns after closing the logger once; without, it
    raises ValueError. *)
Theorem fresh_downloader_downloads_nothing
    read_lines cfg lg self worker w :
  init read_lines cfg lg = Ok self ->
  let r := __call__ worker self w in
  dispatched (since w r.2) = []
  /\ awaited (since w r.2) = []
  /\ ((1 <= num_workers self)%Z ->
      r.1 = Ok tt /\ closes (since w r.2) = 1)
  /\ ((num_workers self < 1)%Z -> r = (Raise ValueError, w)).
Proof.
  intros Hinit. destruct (init_fields _ _ _ _ Hinit) as (Hmap & _ & _).
  simpl. unfold __call__. rewrite start_download_run_stage.
  assert (tasks self = []) as Htasks by (unfold tasks; by rewrite Hmap).
  rewrite Htasks.
  destruct (decide (num_workers self < 1)%Z) as [Hn|Hn].
  - rewrite run_stage_no_pool by done. simpl. unfold since.
    rewrite drop_all. split; [done|]. split; [done|].
    split; [intros Hge; lia|done].
  - assert (1 <= num_workers self)%Z as Hn' by lia.
    destruct (run_stage_ok worker (num_workers self) [] (logger self) w Hn')
      as (w' & Hrun & Hh & _); [constructor|].
    rewrite Hrun. simpl. rewrite (since_app _ _ _ Hh). simpl.
    split; [done|]. split; [done|]. split; [done|]. intros Hlt. lia.
Qed.

Lemma fresh_downloader_downloads_nothing_witness :
  dispatched
    (since empty_world
       (__call__ always_ok
          (mk ["chA"; "chB"] (Pathlib.mkPath "/" ["data"]) 4 []
             (a_Logger ConsoleLogger_obj) []) empty_world).2) = [].
Proof.
  refine (proj1 (fresh_downloader_downloads_nothing
            (fun _ => Ok ["chA"; "chB"])
            (mkCfg None (Some "channels.txt")
               (Pathlib.mkPath "/" ["data"]) (Some 4%Z) None)
            (a_Logger ConsoleLogger_obj) _ always_ok empty_world _)).
  reflexivity.
Defined.

End DownloadMore.

(** ** The pool block of both stages *)

Section PoolMore.




End PoolMore.

(** ** The separation stage: candidates, tasks, what reaches the ledger *)

Section SeparatorMore.
Import MusicSeparator.

Lemma glob1_star_elem_iff dir e :
  e ∈ Glob._glob1_star dir true
  <-> e ∈ Glob.entries_of dir
      /\ Glob.is_dir e.2 = true /\ Glob._ishidden e.1 = false.
Proof.
  unfold Glob._glob1_star, Glob._listdir.
  rewrite !list_elem_of_filter. tauto.
Qed.

Lemma lexists_iff dir basename :
  Glob._lexists dir basename = true
  <-> exists n, (basename, n) ∈ Glob.entries_of dir.
Proof.
  unfold Glob._lexists. rewrite existsb_exists. split.
  - intros ([name n] & Hin & Heq). simpl in Heq.
    apply String.eqb_eq in Heq as ->. exists n. by apply list_elem_of_In.
  - intros [n Hn]. exists (basename, n). split; [by apply list_elem_of_In|].
    apply String.eqb_refl.
Qed.

Lemma glob_wav_elem in_path dir p :
  p ∈ Glob.glob_wav in_path dir ->
  exists a da b db,
    (a, da) ∈ Glob.entries_of dir
    /\ Glob.is_dir da = true /\ Glob._ishidden a = false
    /\ (b, db) ∈ Glob.entries_of da
    /\ Glob.is_dir db = true /\ Glob._ishidden b = false
    /\ (exists n, (".wav", n) ∈ Glob.entries_of db)
    /\ p = Glob.os_path_join
             (Glob.os_path_join (Glob.os_path_join in_path a) b) ".wav".
Proof.
  unfold Glob.glob_wav. rewrite list_elem_of_bind.
  intros ([a da] & Hp & Ha). apply glob1_star_elem_iff in Ha as (Ha & Hda & Hha).
  apply list_elem_of_bind in Hp as ([b db] & Hp & Hb).
  apply glob1_star_elem_iff in Hb as (Hb & Hdb & Hhb).
  apply list_elem_of_bind in Hp as (name & Hp & Hname).
  unfold Glob._glob0 in Hname. simpl in *.
  destruct (Glob._lexists db ".wav") eqn:Hex; [|by apply elem_of_nil in Hname].
  apply list_elem_of_singleton in Hname as ->.
  apply list_elem_of_singleton in Hp as ->.
  exists a, da, b, db. repeat split; try done. by apply lexists_iff.
Qed.

(** X15. What the pattern [{in_path}/*/*/.wav] matches, exactly, for an
    [in_path] that glob takes as it is written (not empty, none of the
    characters glob reads as a pattern, no slash at its end): one path
    [in_path/a/b/.wav] for every directory [a] in [in_path] and directory
    [b] in [a], neither with a name starting with a dot, such that [b] has
    an entry (a file or a directory) named [.wav]; nothing else. An audio
    file [b/title.wav] is never matched. *)
Theorem glob_wav_matches_exactly in_path dir p :
  Glob.literal in_path = true ->
  p ∈ Glob.glob_wav in_path dir
  <-> exists a da b db,
        (a, da) ∈ Glob.entries_of dir
        /\ Glob.is_dir da = true /\ Glob._ishidden a = false
        /\ (b, db) ∈ Glob.entries_of da
        /\ Glob.is_dir db = true /\ Glob._ishidden b = false
        /\ (exists n, (".wav", n) ∈ Glob.entries_of db)
        /\ p = Glob.os_path_join
                 (Glob.os_path_join (Glob.os_path_join in_path a) b) ".wav".
Proof.
  intros _. split; [apply glob_wav_elem|].
  intros (a & da & b & db & Ha & Hda & Hha & Hb & Hdb & Hhb & Hex & ->).
  unfold Glob.glob_wav. apply list_elem_of_bind.
  exists (a, da). split; [|by apply glob1_star_elem_iff].
  apply list_elem_of_bind. exists (b, db).
  split; [|by apply glob1_star_elem_iff].
  apply list_elem_of_bind. exists ".wav". simpl.
  unfold Glob._glob0. rewrite (proj2 (lexists_iff db ".wav") Hex).
  split; by left.
Qed.

Lemma glob_wav_matches_exactly_witness :
  "data/chA/vid2/.wav" ∈ Glob.glob_wav "data" tree_with_wav_directory.
Proof.
  apply (glob_wav_matches_exactly "data" tree_with_wav_directory
           "data/chA/vid2/.wav" eq_refl).
  exists "chA",
    (Dir [("vid1", Dir [("title_vid1.wav", File)]);
          ("vid2", Dir [("title_vid2.wav", File); (".wav", Dir [])])]),
    "vid2", (Dir [("title_vid2.wav", File); (".wav", Dir [])]).
  split; [by left|]. split; [reflexivity|]. split; [reflexivity|].
  split; [right; by left|]. split; [reflexivity|]. split; [reflexivity|].
  split; [|reflexivity]. exists (Dir []). right. by left.
Defined.

Lemma string_length_app (a b : string) :
  String.length (a +:+ b) = String.length a + String.length b.
Proof. induction a as [|c a IH]; simpl; [done|]. by rewrite IH. Qed.

Lemma os_path_join_length a b :
  String.length b <= String.length (Glob.os_path_join a b).
Proof.
  unfold Glob.os_path_join. destruct (String.eqb _ "/");
    rewrite !string_length_app; lia.
Qed.

Lemma run_task_unpacks env self args w :
  String.length args <> 1 ->
  run_task env self (separate_audio_task args) w = (Raise TypeError, w).
Proof.
  intros Hlen. unfold run_task.
  destruct args as [|c [|c' args]]; [done| |done]. by destruct Hlen.
Qed.

Lemma init_audio_filepaths env cfg lg self :
  init env cfg lg = Ok self ->
  exists dir, at_in_path env = Some dir
              /\ audio_filepaths self
                 = Glob.glob_wav (Pathlib.render (cfg_in_path cfg)) dir
              /\ num_workers self = default 0%Z (cfg_num_workers cfg)
              /\ out_path self
                 = Pathlib.render
                     (default (cfg_in_path cfg) (cfg_out_path cfg)).
Proof.
  unfold init. destruct (at_in_path env) as [dir|]; [|done].
  destruct (mkdir_out_path env) as [[]|e]; simpl; [|done].
  intros [= <-]. by exists dir.
Qed.

(** X16. No task of the separation stage ever reaches the separation
    model: [separate_all] passes the path string itself as [args], the
    worker unpacks it into its characters, and every path the constructor
    found has more than one of them, so each task raises TypeError in its
    worker before [separate_audio] starts. A separator with a candidate and
    a pool therefore raises TypeError at the first result it awaits and
    does not close the logger. *)
Theorem separator_tasks_raise_TypeError env cfg lg self ww :
  init env cfg lg = Ok self ->
  (forall t, t ∈ tasks self ->
             run_task env self t ww = (Raise TypeError, ww))
  /\ (forall w,
        audio_filepaths self <> [] ->
        (1 <= num_workers self)%Z ->
        let r := separate_all (worker_of (run_task env self) ww) self w in
        r.1 = Raise TypeError
        /\ awaited (since w r.2) = take 1 (tasks self)
        /\ closes (since w r.2) = 0).
Proof.
  intros Hinit.
  destruct (init_audio_filepaths _ _ _ _ Hinit) as (dir & _ & Hpaths & _).
  assert (forall t, t ∈ tasks self ->
                    run_task env self t ww = (Raise TypeError, ww)) as Htasks.
  { intros t Ht. unfold tasks in Ht.
    apply list_elem_of_fmap in Ht as (p & -> & Hp).
    apply run_task_unpacks. rewrite Hpaths in Hp.
    apply glob_wav_elem in Hp as (a & da & b & db & _ & _ & _ & _ & _ & _ & _ & ->).
    pose proof (os_path_join_length
                  (Glob.os_path_join
                     (Glob.os_path_join (Pathlib.render (cfg_in_path cfg)) a)
                     b)
                  ".wav") as Hlen.
    simpl in Hlen. lia. }
  split; [exact Htasks|].
  intros w Hne Hn. simpl. rewrite separate_all_run_stage.
  unfold tasks in *. destruct (audio_filepaths self) as [|p ps]; [done|].
  simpl map.
  rewrite (run_stage_raise _ _ [] (separate_audio_task p)
             (map separate_audio_task ps) TypeError _ w Hn).
  - cbn [fst snd]. rewrite since_with_history.
    change (map EvGet ([] ++ [separate_audio_task p]))
      with [EvGet (separate_audio_task p)].
    split; [done|]. split.
    + by rewrite !awaited_app, awaited_apply_async.
    + by rewrite !closes_app, closes_apply_async.
  - constructor.
  - unfold worker_of. rewrite (Htasks (separate_audio_task p)); [done|].
    by left.
Qed.

Lemma separator_tasks_raise_TypeError_witness :
  (separate_all
     (worker_of (run_task (separator_env tree_with_wav_directory)
                   (mk "data" "data" ["data/chA/vid2/.wav"] 2
                      (a_Logger ConsoleLogger_obj))) empty_world)
     (mk "data" "data" ["data/chA/vid2/.wav"] 2 (a_Logger ConsoleLogger_obj))
     empty_world).1 = Raise TypeError.
Proof.
  refine (proj1 (proj2 (separator_tasks_raise_TypeError
            (separator_env tree_with_wav_directory) separator_cfg
            (a_Logger ConsoleLogger_obj) _ empty_world eq_refl)
            empty_world _ _)).
  - discriminate.
  - simpl. lia.
Defined.

(** X17. [separate_audio] writes to the ledger only after the separation:
    whenever it leaves the world changed, the audio file was there,
    [demucs] returned, and the argument was a [Path] with at least two
    components (so that [parent] and [parents[1]] exist). A missing file, a
    failing model, a [str] argument or a too short path all end in an error
    with nothing logged. *)
Theorem separate_audio_logs_only_after_separation env self p w r w' :
  separate_audio env self p w = (r, w') ->
  w' <> w ->
  isfile env p = true
  /\ demucs_separate_main env (out_path self) p = Ok tt
  /\ exists q, p = a_Path q /\ 2 <= length (Pathlib.parts q).
Proof.
  unfold separate_audio. monad.
  destruct (isfile env p); monad; [|by intros [= <- <-]].
  destruct (demucs_separate_main env (out_path self) p) as [[]|e]; monad;
    [|by intros [= <- <-]].
  destruct p as [s|q]; simpl; [by intros [= <- <-]|].
  unfold Pathlib.parents. case_decide as Hlen; simpl; [|by intros [= <- <-]].
  intros _ _. repeat split; try done. exists q. split; [done|lia].
Qed.

Lemma separate_audio_logs_only_after_separation_witness :
  isfile (separator_env tree_of_audio_files)
    (a_Path (Pathlib.mkPath "/" ["data"; "chA"; "vid1"; "title_vid1.wav"]))
  = true
  /\ demucs_separate_main (separator_env tree_of_audio_files)
       (out_path separator_on_ledger)
       (a_Path (Pathlib.mkPath "/" ["data"; "chA"; "vid1"; "title_vid1.wav"]))
     = Ok tt
  /\ exists q,
       a_Path (Pathlib.mkPath "/" ["data"; "chA"; "vid1"; "title_vid1.wav"])
       = a_Path q
       /\ 2 <= length (Pathlib.parts q).
Proof.
  refine (separate_audio_logs_only_after_separation
            (separator_env tree_of_audio_files) separator_on_ledger
            (a_Path (Pathlib.mkPath "/" ["data"; "chA"; "vid1"; "title_vid1.wav"]))
            fresh_ledger_world _ _ eq_refl _).
  intros H. apply (f_equal TABLE_EXISTS) in H. vm_compute in H. discriminate.
Defined.

End SeparatorMore.

(** ** The detection stage *)

Section VADMore.
Import VAD.

(** X18. [update_vad_config] returns only on an object whose [vad_config],
    [out_path], [diarizer] and [num_workers] are all set; [__init__] calls
    it when only [vad_config] is, so the constructor of [VAD] never returns
    an object: it raises AttributeError once the configuration file is
    loaded, and the loader's error otherwise. *)
Theorem VAD_init_always_raises env cfg lg :
  (forall self,
      is_ok (update_vad_config self) = true
      <-> is_Some (vad_config self) /\ is_Some (out_path self)
          /\ is_Some (diarizer self) /\ is_Some (num_workers self))
  /\ init env cfg lg
     = match OmegaConf_load env (cfg_vad_config cfg) with
       | Ok _ => Raise AttributeError
       | Raise e => Raise e
       end.
Proof.
  split.
  - intros [vc ip op af nw bs d l]. unfold update_vad_config, getattr. simpl.
    destruct vc, op, d, nw; simpl; split; try done;
      try (intros (H1 & H2 & H3 & H4);
           by first [destruct H1 | destruct H2 | destruct H3 | destruct H4]).
  - unfold init. by destruct (OmegaConf_load env _).
Qed.

End VADMore.

(** ** get_abs_rel_paths *)

Section UtilsMore.
Import Pathlib Utils.

Lemma isabs_false_root p : isabs p = false -> root p = "".
Proof.
  unfold isabs. intros H. apply negb_false_iff in H.
  by apply String.eqb_eq in H.
Qed.

(** X19. The result of [get_abs_rel_paths] is a fixed point: from the
    relative path it returned the function computes the same pair again,
    and so it does from the absolute path it returned, when that one is
    absolute. *)
Theorem get_abs_rel_paths_is_stable input_path base_path abs_path rel_path :
  get_abs_rel_paths input_path base_path = Ok (abs_path, rel_path) ->
  get_abs_rel_paths rel_path base_path = Ok (abs_path, rel_path)
  /\ (isabs abs_path = true ->
      get_abs_rel_paths abs_path base_path = Ok (abs_path, rel_path)).
Proof.
  unfold get_abs_rel_paths.
  destruct (isabs input_path) eqn:Habs.
  - destruct (relative_to input_path base_path) as [rel|e] eqn:Hrel;
      simpl; [|done].
    intros [= <- <-].
    destruct (relative_to_join _ _ _ Hrel) as [Hjoin Hr].
    rewrite Hr, Hjoin, Habs, Hrel. by split.
  - intros [= <- <-]. rewrite Habs. split; [done|].
    intros Habs'. rewrite Habs'.
    pose proof (isabs_false_root _ Habs) as Hroot.
    unfold joinpath in *. rewrite Habs in *. simpl in *.
    unfold relative_to, is_relative_to. simpl.
    rewrite String.eqb_refl, take_app_length.
    rewrite bool_decide_eq_true_2 by done. simpl.
    rewrite drop_app_length. destruct input_path as [r ps]. simpl in *.
    by subst r.
Qed.

Lemma get_abs_rel_paths_is_stable_witness :
  get_abs_rel_paths (mkPath "" ["chA"; "a.wav"]) (mkPath "/" ["data"])
  = Ok (mkPath "/" ["data"; "chA"; "a.wav"], mkPath "" ["chA"; "a.wav"])
  /\ get_abs_rel_paths (mkPath "/" ["data"; "chA"; "a.wav"])
       (mkPath "/" ["data"])
     = Ok (mkPath "/" ["data"; "chA"; "a.wav"], mkPath "" ["chA"; "a.wav"]).
Proof.
  destruct (get_abs_rel_paths_is_stable (mkPath "" ["chA"; "a.wav"])
              (mkPath "/" ["data"]) (mkPath "/" ["data"; "chA"; "a.wav"])
              (mkPath "" ["chA"; "a.wav"]) eq_refl) as [Hrel Habs].
  split; [exact Hrel|]. by apply Habs.
Defined.

(** X20. With a relative [base_path] the function cannot give an absolute
    path: an absolute input raises ValueError, and for a relative input the
    "absolute" path it returns is itself relative. *)
Theorem get_abs_rel_paths_with_relative_base input_path base_path :
  isabs base_path = false ->
  (isabs input_path = true ->
   get_abs_rel_paths input_path base_path = Raise ValueError)
  /\ (isabs input_path = false ->
      exists abs_path,
        get_abs_rel_paths input_path base_path = Ok (abs_path, input_path)
        /\ isabs abs_path = false).
Proof.
  intros Hbase. unfold get_abs_rel_paths. split; intros Hin; rewrite Hin.
  - unfold relative_to, is_relative_to.
    rewrite (isabs_false_root _ Hbase).
    unfold isabs in Hin. apply negb_true_iff in Hin. by rewrite Hin.
  - eexists. split; [done|]. unfold joinpath. rewrite Hin.
    unfold isabs in *. done.
Qed.

Lemma get_abs_rel_paths_with_relative_base_witness :
  get_abs_rel_paths (mkPath "/" ["data"; "a.wav"]) (mkPath "" ["data"])
  = Raise ValueError.
Proof.
  by apply (get_abs_rel_paths_with_relative_base
              (mkPath "/" ["data"; "a.wav"]) (mkPath "" ["data"])).
Defined.

End UtilsMore.

(** ** A stage and its logger after the run *)

Section AfterTheRun.
Import YoutubeDownloader.

Lemma log_on_closed_connection c f status channel_id video_id ctx w :
  connections w !! c = Some (mkConnection f true) ->
  DatabaseLogger.log c status channel_id video_id ctx w
  = (Raise ProgrammingError, w).
Proof.
  intros Hc. unfold DatabaseLogger.log, DatabaseLogger.create_table,
    Sqlite.execute, Sqlite.commit. monad.
  case_bool_decide; monad; by rewrite Hc.
Qed.

(** X21. A stage whose logger is a [DatabaseLogger] closes it only when it
    has nothing to do. Such a stage cannot be pickled, so no task of it
    reaches a worker. With a pool and without tasks the run returns and
    leaves the logger closed: the connection is closed (its database
    untouched by the close), and from then on every [log] through that
    logger raises (sqlite3.ProgrammingError), so a second enumeration on
    the same downloader, or any other stage sharing the logger, fails at
    its first [log]. With tasks the run raises TypeError at the first
    result it awaits and leaves the logger open. *)
Theorem DatabaseLogger_stage_closes_only_without_tasks ytdl self c f w ww :
  logger self = a_Logger (DatabaseLogger_obj c) ->
  connections w !! c = Some (mkConnection f false) ->
  (1 <= num_workers self)%Z ->
  let worker := pool_report (logger self) (run_task ytdl self) ww in
  (tasks self = [] ->
   exists w',
     start_download worker self w = (Ok tt, w')
     /\ connections w' !! c = Some (mkConnection f true)
     /\ files w' = files w
     /\ (forall status channel_id video_id ctx,
           logger_log (logger self) status channel_id video_id [ctx] w'
           = (Raise ProgrammingError, w'))
     /\ (forall ytdl' channel_id entries,
           extract_info ytdl' ("https://youtube.com/channel/" +:+ channel_id)
             = Ok entries ->
           truthy_ids entries <> [] ->
           get_video_ids ytdl' self channel_id w'
           = (Raise ProgrammingError, w')))
  /\ (tasks self <> [] ->
      exists w',
        start_download worker self w = (Raise TypeError, w')
        /\ awaited (since w w') = take 1 (tasks self)
        /\ closes (since w w') = 0
        /\ connections w' = connections w /\ files w' = files w).
Proof.
  intros Hlogger Hc Hn. simpl. split.
  - intros Htasks.
    rewrite start_download_run_stage. unfold run_stage. rewrite Htasks.
    rewrite (bind_ok _ _ _ _ _
               (pool_block_ok _ _ [] w Hn (Forall_nil_2 _))).
    rewrite Hlogger.
    destruct (logger_close (a_Logger (DatabaseLogger_obj c))
                (with_history w
                   (history w ++ map EvApplyAsync []
                      ++ map EvGet [] ++ [EvTerminate])))
      as [r w'] eqn:Hclose.
    assert (r = Ok tt
            /\ connections w'
               = alter (fun k => mkConnection (db_file k) true) c
                   (connections w)
            /\ files w' = files w) as (-> & Hconn & Hfiles).
    { apply (f_equal fst) in Hclose as Hr. apply (f_equal snd) in Hclose.
      simpl in Hr, Hclose. by subst r w'. }
    assert (connections w' !! c = Some (mkConnection f true)) as Hc'.
    { by rewrite Hconn, lookup_alter_eq, Hc. }
    exists w'. split; [done|]. split; [exact Hc'|]. split; [done|]. split.
    + intros status channel_id video_id ctx.
      by apply (log_on_closed_connection c f).
    + intros ytdl' channel_id entries Hentries Hne.
      unfold get_video_ids. rewrite Hentries, Hlogger. monad.
      destruct (truthy_ids entries) as [|v vs]; [done|].
      cbn [for_each].
      rewrite (bind_raise
                 (logger_log (a_Logger (DatabaseLogger_obj c)) (PyBool false)
                    channel_id v [__name__]) _ w' ProgrammingError w'
                 (log_on_closed_connection c f _ _ _ _ w' Hc')).
      reflexivity.
  - intros Htasks. rewrite start_download_run_stage.
    destruct (tasks self) as [|t ts]; [done|].
    eexists. split.
    { apply (run_stage_raise _ _ [] t ts TypeError _ w Hn); [constructor|].
      unfold pool_report. by rewrite Hlogger. }
    rewrite since_with_history.
    change (map EvGet ([] ++ [t])) with [EvGet t].
    split; [by rewrite !awaited_app, awaited_apply_async|].
    split; [by rewrite !closes_app, closes_apply_async|].
    done.
Qed.

Lemma DatabaseLogger_stage_closes_only_without_tasks_witness :
  (exists w',
     start_download (ledger_pool ledger_world) ledger_stage ledger_world
     = (Ok tt, w')
     /\ connections w' !! 0 = Some (mkConnection "logs.db" true)
     /\ get_video_ids two_videos ledger_stage "chA" w'
        = (Raise ProgrammingError, w'))
  /\ (exists w',
        start_download (ledger_pool ledger_world) ledger_stage_enumerated
          ledger_world = (Raise TypeError, w')
        /\ connections w' !! 0 = Some (mkConnection "logs.db" false)).
Proof.
  split.
  - destruct (proj1 (DatabaseLogger_stage_closes_only_without_tasks
                two_videos ledger_stage 0 "logs.db" ledger_world ledger_world
                eq_refl eq_refl ltac:(simpl; lia)) eq_refl)
      as (w' & Hrun & Hconn & _ & _ & Hget).
    exists w'. split; [exact Hrun|]. split; [exact Hconn|].
    apply (Hget two_videos "chA" [Some "vid1"; Some "vid2"]).
    + reflexivity.
    + discriminate.
  - destruct (proj2 (DatabaseLogger_stage_closes_only_without_tasks
                two_videos ledger_stage_enumerated 0 "logs.db" ledger_world
                ledger_world eq_refl eq_refl ltac:(simpl; lia)))
      as (w' & Hrun & _ & _ & Hconn & _); [discriminate|].
    exists w'. split; [exact Hrun|]. rewrite Hconn. reflexivity.
Defined.

End AfterTheRun.

(** ** Enumeration and download together *)

Section PendingThenComplete.
Import YoutubeDownloader.

Lemma rows_for_besides_ne v v' rows :
  v' <> v -> rows_for v' (rows_besides v rows) = rows_for v' rows.
Proof.
  intros Hne. unfold rows_for, rows_besides.
  induction rows as [|x rows IH]; [done|].
  rewrite (filter_cons _ x rows). case_decide as Hx.
  - rewrite !filter_cons. case_decide; by rewrite IH.
  - rewrite (filter_cons _ x rows). case_decide; [|done].
    exfalso. apply Hne. congruence.
Qed.

(** X23. Pending, then complete: on an open [DatabaseLogger], and with
    [downloader_kwargs] leaving the progress hooks alone, enumerating a
    channel and then downloading one of its videos (a direct call of
    [download_audio]), the engine reporting "finished", leaves that video
    with its one row at status 1 while every other listed video keeps its
    row at status 0. *)
Theorem enumerate_then_download_marks_complete
    ytdl self channel_id entries video_id progress outcome c f w :
  logger self = a_Logger (DatabaseLogger_obj c) ->
  "progress_hooks" ∉ downloader_kwargs self ->
  extract_info ytdl ("https://youtube.com/channel/" +:+ channel_id)
    = Ok entries ->
  makedirs ytdl
    (Pathlib.mkPath (Pathlib.root (save_dir self))
       (Pathlib.parts (save_dir self) ++ [channel_id; video_id])) = Ok tt ->
  download ytdl ("https://www.youtube.com/watch?v=" +:+ video_id)
    = (progress, outcome) ->
  "finished" ∈ progress ->
  connections w !! c = Some (mkConnection f false) ->
  table_known w f __name__ = true ->
  exists self' w1 w2,
    get_video_ids ytdl self channel_id w = (Ok self', w1)
    /\ download_audio ytdl self' channel_id video_id w1 = (outcome, w2)
    /\ rows_for video_id (rows_of w2 f __name__)
       = [mkRow 1 channel_id video_id]
    /\ forall v, v ∈ truthy_ids entries -> v <> video_id ->
         rows_for v (rows_of w2 f __name__) = [mkRow 0 channel_id v].
Proof.
  intros Hlogger Hkw Hentries Hmk Hd Hfin Hc Hk.
  destruct (log_each_video c f (PyBool false) channel_id __name__
              (truthy_ids entries) w Hc Hk eq_refl eq_refl)
    as (w1 & Hlog & Hc1 & Hk1 & Hrows1).
  rewrite <- Hc1 in Hc.
  destruct (logger_hooks_spec c f channel_id video_id progress w1 Hc Hk1)
    as (w2 & Hloop & _ & _ & Hb & _ & Hrow).
  destruct self as [ids dir n m lg kw]. simpl in Hlogger, Hmk, Hkw. subst lg.
  pose proof (progress_loop_installed
                (mk ids dir n (dict_set channel_id (truthy_ids entries) m)
                   (a_Logger (DatabaseLogger_obj c)) kw)
                channel_id video_id progress w1 Hkw) as Hinst.
  cbn [logger downloader_kwargs] in Hinst. rewrite Hloop in Hinst.
  eexists _, w1, w2. split.
  { unfold get_video_ids. simpl. rewrite Hentries.
    rewrite (bind_ok (lift (Ok entries)) _ w entries w eq_refl).
    rewrite (bind_ok _ _ _ _ _ Hlog). reflexivity. }
  split.
  { unfold download_audio. simpl. rewrite Hd, Hmk. cbv beta iota zeta.
    rewrite (bind_ok (lift (Ok tt)) _ w1 tt w1 eq_refl).
    rewrite (bind_ok _ _ _ _ _ Hinst). by destruct outcome. }
  split; [by apply Hrow|].
  intros v Hv Hne.
  rewrite <- (rows_for_besides_ne video_id v) by done.
  rewrite Hb, rows_for_besides_ne by done.
  rewrite Hrows1. by rewrite bool_decide_eq_true_2.
Qed.

Lemma enumerate_then_download_marks_complete_witness :
  exists self' w1 w2,
    get_video_ids two_videos ledger_stage "chA" fresh_ledger_world
      = (Ok self', w1)
    /\ download_audio two_videos self' "chA" "vid2" w1 = (Ok tt, w2)
    /\ rows_for "vid2" (rows_of w2 "logs.db" __name__)
       = [mkRow 1 "chA" "vid2"]
    /\ rows_for "vid1" (rows_of w2 "logs.db" __name__)
       = [mkRow 0 "chA" "vid1"].
Proof.
  destruct (enumerate_then_download_marks_complete two_videos ledger_stage
              "chA" [Some "vid1"; Some "vid2"] "vid2"
              ["downloading"; "finished"] (Ok tt) 0 "logs.db"
              fresh_ledger_world)
    as (self' & w1 & w2 & Hget & Hdl & Hrow & Hothers);
    try reflexivity.
  - apply not_elem_of_nil.
  - right. left.
  - exists self', w1, w2. split; [exact Hget|]. split; [exact Hdl|].
    split; [exact Hrow|]. apply Hothers; [left|discriminate].
Defined.

End PendingThenComplete.

(** ** The definitions on small inputs *)

Section Examples.
Import Pathlib.

Example parent_name_of_saved_file :
  name (parent (mkPath "/" ["data"; "chA"; "vid1"; "title_vid1.wav"])) = "vid1"
  /\ parents (mkPath "/" ["data"; "chA"; "vid1"; "title_vid1.wav"]) 1
     = Ok (mkPath "/" ["data"; "chA"])
  /\ parents (mkPath "" ["a.wav"]) 1 = Raise IndexError.
Proof. by repeat split. Qed.

Example relative_to_examples :
  relative_to (mkPath "/" ["data"; "chA"]) (mkPath "/" ["data"])
    = Ok (mkPath "" ["chA"])
  /\ relative_to (mkPath "/" ["data"; "chA"]) (mkPath "" ["data"])
     = Raise ValueError
  /\ relative_to (mkPath "" ["chA"]) (mkPath "" []) = Ok (mkPath "" ["chA"]).
Proof. by repeat split. Qed.

Example render_examples :
  render (mkPath "" ["data"; "chA"]) = "data/chA"
  /\ render (mkPath "/" ["data"]) = "/data"
  /\ render (mkPath "" []) = "." /\ render (mkPath "/" []) = "/".
Proof. by repeat split. Qed.

Example get_abs_rel_paths_relative :
  Utils.get_abs_rel_paths (mkPath "" ["chA"; "a.wav"]) (mkPath "/" ["data"])
  = Ok (mkPath "/" ["data"; "chA"; "a.wav"], mkPath "" ["chA"; "a.wav"]).
Proof. reflexivity. Qed.

(** a file named just [.wav] is the one thing the pattern finds; hidden
    directories and plain files on the way are passed over *)
Example glob_wav_examples :
  Glob.glob_wav "data"
    (Dir [("chA", Dir [("vid1", Dir [(".wav", File); ("a.wav", File)])]);
          (".cache", Dir [("vid2", Dir [(".wav", File)])]);
          ("notes.txt", File)])
  = ["data/chA/vid1/.wav"]
  /\ Glob.glob_wav "data" tree_of_audio_files = []
  /\ Glob.glob_wav "data" File = [].
Proof. by repeat split. Qed.

Example literal_examples :
  Glob.literal "data" = true /\ Glob.literal "./data/in" = true
  /\ Glob.literal "d[a]ta" = false /\ Glob.literal "data/" = false
  /\ Glob.literal "" = false.
Proof. by repeat split. Qed.

Example DatabaseLogger_log_twice :
  (DatabaseLogger.log 0 (PyBool false) "chA" "vid1" "YoutubeDownloader" ;;
   DatabaseLogger.log 0 (PyBool false) "chA" "vid2" "YoutubeDownloader" ;;
   DatabaseLogger.log 0 (PyBool true) "chA" "vid1" "YoutubeDownloader")
    fresh_ledger_world
  = (Ok tt,
     mkWorld ["YoutubeDownloader"]
       {[ "logs.db" := {[ "youtubedownloader_logs" :=
                            [mkRow 0 "chA" "vid2"; mkRow 1 "chA" "vid1"] ]} ]}
       {[ 0 := mkConnection "logs.db" false ]} 1 [] []).
Proof. vm_compute. reflexivity. Qed.

(** an [int] beyond 64 bits cannot be bound: the table is there by then,
    the row is not written *)
Example DatabaseLogger_log_overflow :
  DatabaseLogger.log 0 (PyInt (2 ^ 63)) "chA" "vid1" "YoutubeDownloader"
    ledger_world
  = (Raise OverflowError, ledger_world)
  /\ DatabaseLogger.log 0 (PyInt (2 ^ 63)) "chA" "vid1" "YoutubeDownloader"
       fresh_ledger_world
     = (Raise OverflowError,
        mkWorld ["YoutubeDownloader"]
          {[ "logs.db" := {[ "youtubedownloader_logs" := [] ]} ]}
          {[ 0 := mkConnection "logs.db" false ]} 1 [] [])
  /\ (DatabaseLogger.log 0 (PyInt (2 ^ 63 - 1)) "chA" "vid1"
        "YoutubeDownloader" ledger_world).1 = Ok tt.
Proof. split; [|split]; vm_compute; reflexivity. Qed.

(** a stage name with a blank gives no table name; two stage names that
    differ in case only share a table *)
Example DatabaseLogger_log_stage_names :
  DatabaseLogger.log 0 (PyBool true) "chA" "vid1" "my stage"
    fresh_ledger_world
  = (Raise OperationalError, fresh_ledger_world)
  /\ stage_name_ok "my stage" = false /\ stage_name_ok "sqlite" = false
  /\ stage_name_ok "" = true /\ stage_name_ok "MusicSeparator" = true
  /\ rows_of
       (DatabaseLogger.log 0 (PyBool false) "chB" "vid1" "youtubedownloader"
          ledger_world).2 "logs.db" "YoutubeDownloader"
     = [mkRow 0 "chB" "vid1"].
Proof. repeat split; vm_compute; reflexivity. Qed.

Example DatabaseLogger_log_after_close :
  (DatabaseLogger.close 0 ;;
   DatabaseLogger.log 0 (PyBool true) "chA" "vid1" "YoutubeDownloader")
    fresh_ledger_world
  = (Raise ProgrammingError,
     mkWorld [] ∅ {[ 0 := mkConnection "logs.db" true ]} 1 [] []).
Proof. vm_compute. reflexivity. Qed.

(** [TABLE_EXISTS] belongs to the class: once one instance has created the
    table of a stage in its file, a second instance on another file skips
    the creation and its insert finds no table. *)
Example TABLE_EXISTS_is_shared_between_instances :
  (DatabaseLogger.log 0 (PyBool true) "chA" "vid1" "YoutubeDownloader" ;;
   DatabaseLogger.log 1 (PyBool true) "chA" "vid1" "YoutubeDownloader")
    two_ledgers_world
  = (Raise OperationalError,
     mkWorld ["YoutubeDownloader"]
       {[ "a.db" := {[ "youtubedownloader_logs" := [mkRow 1 "chA" "vid1"] ]} ]}
       {[ 0 := mkConnection "a.db" false; 1 := mkConnection "b.db" false ]}
       0 [] []).
Proof. vm_compute. reflexivity. Qed.

(** two spellings of the path of one file give one database: the second
    logger finds the table the first has created *)
Example one_database_two_spellings :
  (l1 ← DatabaseLogger.init os_open_in_srv "a.db";
   l2 ← DatabaseLogger.init os_open_in_srv "./a.db";
   Logger_log l1 (PyBool false) "chA" "vid1" ["YoutubeDownloader"] ;;
   Logger_log l2 (PyBool true) "chA" "vid1" ["YoutubeDownloader"])
    empty_world
  = (Ok tt,
     mkWorld ["YoutubeDownloader"]
       {[ "/srv/a.db" :=
            {[ "youtubedownloader_logs" := [mkRow 1 "chA" "vid1"] ]} ]}
       {[ 0 := mkConnection "/srv/a.db" false;
          1 := mkConnection "/srv/a.db" false ]} 0 [] []).
Proof. vm_compute. reflexivity. Qed.

(** every [ConsoleLogger()] adds a handler, so a second instance doubles
    the lines *)
Example ConsoleLogger_twice :
  (ConsoleLogger.init ;; ConsoleLogger.init ;;
   ConsoleLogger.log (PyInt 1) "chA" "vid1") empty_world
  = (Ok tt,
     mkWorld [] ∅ ∅ 2
       ["Status: 1, Channel ID: chA, Video ID: vid1";
        "Status: 1, Channel ID: chA, Video ID: vid1"] []).
Proof. vm_compute. reflexivity. Qed.

Example Loggers_init_and_close :
  (loggers ← Loggers.init os_open_in_srv
               [DatabaseLogger_cfg "logs.db"; ConsoleLogger_cfg];
   Loggers.close loggers ;; mret loggers) empty_world
  = (Ok [DatabaseLogger_obj 0; ConsoleLogger_obj],
     mkWorld [] ∅ {[ 0 := mkConnection "/srv/logs.db" true ]} 1 [] []).
Proof. vm_compute. reflexivity. Qed.

(** a file that cannot be opened ends the construction; the sinks made
    before it stay as they are *)
Example Loggers_init_unopenable :
  Loggers.init os_open_fails [ConsoleLogger_cfg; DatabaseLogger_cfg "logs.db"]
    empty_world
  = (Raise OperationalError, mkWorld [] ∅ ∅ 1 [] []).
Proof. vm_compute. reflexivity. Qed.

(** two connections on [":memory:"] have a database each *)
Example Loggers_init_in_memory :
  connections
    (Loggers.init os_open_in_srv
       [DatabaseLogger_cfg ":memory:"; DatabaseLogger_cfg ":memory:"]
       empty_world).2
  = {[ 0 := mkConnection ":memory:0" false;
       1 := mkConnection ":memory:1" false ]}.
Proof. vm_compute. reflexivity. Qed.

Example get_video_ids_logs_incomplete :
  YoutubeDownloader.get_video_ids
    (YoutubeDownloader.mkYoutubeDL
       (fun _ => Ok [Some "vid1"; None; Some ""; Some "vid2"])
       (fun _ => ([], Ok tt)) (fun _ => Ok tt))
    ledger_stage "chA" fresh_ledger_world
  = (Ok ledger_stage_enumerated,
     mkWorld ["YoutubeDownloader"]
       {[ "logs.db" := {[ "youtubedownloader_logs" :=
                            [mkRow 0 "chA" "vid1"; mkRow 0 "chA" "vid2"] ]} ]}
       {[ 0 := mkConnection "logs.db" false ]} 1 [] []).
Proof. vm_compute. reflexivity. Qed.

(** through [Loggers] the enumeration stops at its first [log] call and
    the map is never filled *)
Example get_video_ids_through_Loggers :
  YoutubeDownloader.get_video_ids two_videos
    (YoutubeDownloader.mk ["chA"] (mkPath "/" ["data"]) 2 []
       (a_Loggers [DatabaseLogger_obj 0; ConsoleLogger_obj]) [])
    "chA" fresh_ledger_world
  = (Raise TypeError, fresh_ledger_world).
Proof. reflexivity. Qed.

Example download_audio_logs_complete :
  (YoutubeDownloader.download_audio two_videos ledger_stage "chA" "vid1"
     fresh_ledger_world).1 = Ok tt
  /\ rows_of (YoutubeDownloader.download_audio two_videos ledger_stage
                "chA" "vid1" fresh_ledger_world).2
       "logs.db" "YoutubeDownloader"
     = [mkRow 1 "chA" "vid1"].
Proof. split; vm_compute; reflexivity. Qed.

(** with progress hooks of its own in [downloader_kwargs], the stage's hook
    is not installed and nothing is logged *)
Example download_audio_hooks_replaced :
  YoutubeDownloader.download_audio two_videos
    (YoutubeDownloader.mk ["chA"] (mkPath "/" ["data"]) 2 []
       (a_Logger (DatabaseLogger_obj 0)) ["format"; "progress_hooks"])
    "chA" "vid1" fresh_ledger_world
  = (Ok tt, fresh_ledger_world).
Proof. vm_compute. reflexivity. Qed.

Example outtmpl_example :
  YoutubeDownloader.outtmpl ledger_stage "chA" "vid_1" "title" "wav"
  = mkPath "/" ["data"; "chA"; "vid_1"; "title_vid-1.wav"].
Proof. reflexivity. Qed.

(** a stage with a [DatabaseLogger] submits its tasks and fails at the
    first result: the stage cannot be pickled *)
Example start_download_on_the_ledger :
  YoutubeDownloader.start_download (ledger_pool ledger_world)
    ledger_stage_enumerated ledger_world
  = (Raise TypeError,
     with_history ledger_world
       [EvApplyAsync (download_audio_task "chA" "vid1");
        EvApplyAsync (download_audio_task "chA" "vid2");
        EvGet (download_audio_task "chA" "vid1");
        EvTerminate]).
Proof. vm_compute. reflexivity. Qed.

Example start_download_normal_run :
  YoutubeDownloader.start_download always_ok five_items empty_world
  = (Ok tt,
     with_history empty_world
       (map EvApplyAsync (YoutubeDownloader.tasks five_items)
        ++ map EvGet (YoutubeDownloader.tasks five_items)
        ++ [EvTerminate; EvLoggerClose])).
Proof. vm_compute. reflexivity. Qed.

(** as [__call__] runs it, without a call of [get_video_ids] before, the
    map is empty and nothing is submitted *)
Example start_download_without_enumeration :
  dispatched (history (YoutubeDownloader.start_download
                         (ledger_pool ledger_world) ledger_stage
                         ledger_world).2) = [].
Proof. reflexivity. Qed.

Example YoutubeDownloader_init_examples :
  YoutubeDownloader.init (fun _ => Ok ["chA"; "chB"])
    (YoutubeDownloader.mkCfg None (Some "channels.txt")
       (mkPath "/" ["data"]) None None) (a_Logger ConsoleLogger_obj)
  = Ok (YoutubeDownloader.mk ["chA"; "chB"] (mkPath "/" ["data"]) 0 []
          (a_Logger ConsoleLogger_obj) [])
  /\ YoutubeDownloader.init (fun _ => Ok ["chB"])
       (YoutubeDownloader.mkCfg (Some ["chA"]) (Some "channels.txt")
          (mkPath "/" ["data"]) None None) (a_Logger ConsoleLogger_obj)
     = Raise AssertionError
  /\ YoutubeDownloader.init (fun _ => Ok [])
       (YoutubeDownloader.mkCfg (Some ["chA"]) None (mkPath "/" ["data"])
          (Some 4%Z) (Some ["format"])) (a_Logger ConsoleLogger_obj)
     = Ok (YoutubeDownloader.mk ["chA"] (mkPath "/" ["data"]) 4 []
             (a_Logger ConsoleLogger_obj) ["format"])
  /\ YoutubeDownloader.init (fun _ => Ok [])
       (YoutubeDownloader.mkCfg None (Some "") (mkPath "/" ["data"]) None
          None)
       (a_Logger ConsoleLogger_obj)
     = Raise AssertionError.
Proof. by repeat split. Qed.

End Examples.
